(** * verify_logs.py: chronological order of timestamped log lines

  A shallow embedding of [src/verify_logs.py] and the proofs of its
  specified properties.

  Conventions of the embedding.
  - Python [str] values are [string]s of 8-bit characters (the code
    points up to U+00FF).  Among these characters the class [\d] of
    [re] is exactly ['0'..'9'] and the white space of [str.strip] and
    of [\s] is the set [is_space] below.  Text with other code points,
    among them the decimal digits of other scripts, which [\d] accepts
    too, is not covered.
  - Python [int]s are [Z]; the floats returned by [os.path.getctime] are
    finite and only compared, they are rationals ([Q]).
  - [print] appends one [Output] event to the standard output, one
    constructor per [print] statement of the source.
  - The operating system (file system, [glob], [open]) is a record of the
    primitives the program calls, each with the exception it can raise:
    [os.path.getctime] and [open] raise [OSError], the iteration over
    the file delivers the decoded lines and ends at the end of the file
    or with an exception. *)

From Stdlib Require Import ZArith List Bool String Ascii Lia QArith Sorted.
Import ListNotations.

Local Open Scope string_scope.
Local Open Scope list_scope.
Local Open Scope Z_scope.

(** ** Python strings *)

Module PyStr.

(** [c in '0'..'9'], the class [\d] on 8-bit characters. *)
Definition is_digit (c : ascii) : bool :=
  let n := nat_of_ascii c in (48 <=? n)%nat && (n <=? 57)%nat.

(** [str.isspace] on one 8-bit character: TAB..CR, FS..US, space,
    NEL and NBSP. *)
Definition is_space (c : ascii) : bool :=
  let n := nat_of_ascii c in
  ((9 <=? n)%nat && (n <=? 13)%nat)
  || ((28 <=? n)%nat && (n <=? 32)%nat)
  || (n =? 133)%nat || (n =? 160)%nat.

(** [int(c)] for a decimal digit. *)
Definition digit_val (c : ascii) : Z := Z.of_nat (nat_of_ascii c) - 48.

(** [int(s)] for a string of decimal digits. *)
Fixpoint int_acc (acc : Z) (s : string) : Z :=
  match s with
  | EmptyString => acc
  | String c s' => int_acc (10 * acc + digit_val c) s'
  end.

Definition int (s : string) : Z := int_acc 0 s.

(** [s.lstrip()] *)
Fixpoint lstrip (s : string) : string :=
  match s with
  | EmptyString => EmptyString
  | String c s' => if is_space c then lstrip s' else s
  end.

(** [s.rstrip()] *)
Fixpoint rstrip (s : string) : string :=
  match s with
  | EmptyString => EmptyString
  | String c s' =>
      match rstrip s' with
      | EmptyString => if is_space c then EmptyString else String c EmptyString
      | r => String c r
      end
  end.

(** [s.strip()] *)
Definition strip (s : string) : string := rstrip (lstrip s).

(** [s.startswith(p)] *)
Fixpoint startswith (p s : string) : bool :=
  match p, s with
  | EmptyString, _ => true
  | String a p', String b s' => Ascii.eqb a b && startswith p' s'
  | String _ _, EmptyString => false
  end.

(** [sub in s] *)
Fixpoint contains (sub s : string) : bool :=
  startswith sub s
  || match s with
     | EmptyString => false
     | String _ s' => contains sub s'
     end.

(** The first [n] characters, [s[:n]]. *)
Fixpoint take (n : nat) (s : string) : string :=
  match n, s with
  | S n', String c s' => String c (take n' s')
  | _, _ => EmptyString
  end.

End PyStr.

(** ** The fragment of [re] used by the program and by [strptime] *)

Module Re.

(** Character classes. *)
Inductive cls : Type :=
| Chr (c : ascii)          (* a literal character *)
| Dig                      (* \d *)
| Rng (lo hi : ascii)      (* [lo-hi] *)
| Spc.                     (* \s *)

Definition cls_ok (k : cls) (a : ascii) : bool :=
  match k with
  | Chr c => Ascii.eqb c a
  | Dig => PyStr.is_digit a
  | Rng lo hi =>
      (nat_of_ascii lo <=? nat_of_ascii a)%nat
      && (nat_of_ascii a <=? nat_of_ascii hi)%nat
  | Spc => PyStr.is_space a
  end.

Inductive regex : Type :=
| Eps
| One (k : cls)                  (* one character of the class *)
| Many1 (k : cls)                (* k+, greedy *)
| Cat (r1 r2 : regex)            (* r1 r2 *)
| Alt (r1 r2 : regex)            (* r1|r2, the left branch first *)
| Rep (n : nat) (r : regex)      (* r{n} *)
| Group (name : string) (r : regex).  (* a capturing group *)

Definition captures : Type := list (string * string).

(** The text consumed between the input [s] and the remaining [rest]. *)
Definition consumed (s rest : string) : string :=
  PyStr.take (String.length s - String.length rest) s.

Section Matcher.
Context {A : Type}.

(** [k*] by backtracking, the longest run first. *)
Fixpoint many (k : cls) (s : string) (env : captures)
         (kont : string -> captures -> option A) : option A :=
  match s with
  | String a s' =>
      if cls_ok k a then
        match many k s' env kont with
        | Some x => Some x
        | None => kont s env
        end
      else kont s env
  | EmptyString => kont s env
  end.

(** A backtracking matcher in continuation-passing style: the first
    successful path in the order in which [re] explores them. *)
Fixpoint run (r : regex) (s : string) (env : captures)
         (kont : string -> captures -> option A) : option A :=
  match r with
  | Eps => kont s env
  | One k =>
      match s with
      | String a s' => if cls_ok k a then kont s' env else None
      | EmptyString => None
      end
  | Many1 k =>
      match s with
      | String a s' => if cls_ok k a then many k s' env kont else None
      | EmptyString => None
      end
  | Cat r1 r2 => run r1 s env (fun s' env' => run r2 s' env' kont)
  | Alt r1 r2 =>
      match run r1 s env kont with
      | Some x => Some x
      | None => run r2 s env kont
      end
  | Rep n r' =>
      (fix rep (n : nat) (s : string) (env : captures) : option A :=
         match n with
         | O => kont s env
         | S n' => run r' s env (fun s' env' => rep n' s' env')
         end) n s env
  | Group name r' =>
      run r' s env (fun s' env' => kont s' ((name, consumed s s') :: env'))
  end.
End Matcher.

(** [re.compile(r).match(s)]: the remaining input and the groups, or
    [None]. *)
Definition match_ (r : regex) (s : string) : option (string * captures) :=
  run r s [] (fun rest env => Some (rest, env)).

(** [m.group(name)] of a group that took part in the match. *)
Fixpoint group (name : string) (env : captures) : string :=
  match env with
  | [] => EmptyString
  | (n, v) :: env' => if String.eqb n name then v else group name env'
  end.

(** The concatenation of a list of regular expressions. *)
Definition seq (rs : list regex) : regex := fold_right Cat Eps rs.

Definition chr (c : ascii) : regex := One (Chr c).
Definition rng (lo hi : ascii) : regex := One (Rng lo hi).
Definition dig : regex := One Dig.

End Re.

(** ** [datetime]: naive date-times with a resolution of one second *)

Module Datetime.

(** A [datetime] built by [strptime] from [%Y-%m-%d %H:%M:%S]: no time
    zone, and the microsecond is always 0. *)
Record datetime : Type := mk {
  year : Z; month : Z; day : Z;
  hour : Z; minute : Z; second : Z
}.

(** The [ValueError]s that [datetime.strptime] raises. *)
Inductive ValueError : Type :=
| NoFormatMatch (data_string : string)   (* time data ... does not match format ... *)
| UnconvertedData (rest : string)        (* unconverted data remains: ... *)
| FieldOutOfRange (field : string) (value : Z).  (* year, day, hour, ... out of range *)

Definition MINYEAR : Z := 1.
Definition MAXYEAR : Z := 9999.

Definition is_leap (y : Z) : bool :=
  (y mod 4 =? 0) && (negb (y mod 100 =? 0) || (y mod 400 =? 0)).

Definition DAYS_IN_MONTH : list Z :=
  [31; 28; 31; 30; 31; 30; 31; 31; 30; 31; 30; 31].

Definition days_in_month (y m : Z) : Z :=
  if (m =? 2) && is_leap y then 29
  else nth (Z.to_nat (m - 1)) DAYS_IN_MONTH 0.

(** The range checks of [date(year, month, day)]. *)
Definition check_date_fields (y m d : Z) : option ValueError :=
  if negb ((MINYEAR <=? y) && (y <=? MAXYEAR)) then Some (FieldOutOfRange "year" y)
  else if negb ((1 <=? m) && (m <=? 12)) then Some (FieldOutOfRange "month" m)
  else if negb ((1 <=? d) && (d <=? days_in_month y m)) then Some (FieldOutOfRange "day" d)
  else None.

(** The range checks of the time fields of [datetime(...)]. *)
Definition check_time_fields (H M S : Z) : option ValueError :=
  if negb ((0 <=? H) && (H <=? 23)) then Some (FieldOutOfRange "hour" H)
  else if negb ((0 <=? M) && (M <=? 59)) then Some (FieldOutOfRange "minute" M)
  else if negb ((0 <=? S) && (S <=? 59)) then Some (FieldOutOfRange "second" S)
  else None.

(** [datetime(year, month, day, hour, minute, second)] *)
Definition new (y m d H M S : Z) : ValueError + datetime :=
  match check_date_fields y m d with
  | Some e => inl e
  | None =>
      match check_time_fields H M S with
      | Some e => inl e
      | None => inr (mk y m d H M S)
      end
  end.

(** The alternatives [r1|r2|...], tried from left to right. *)
Fixpoint alts (rs : list Re.regex) : Re.regex :=
  match rs with
  | [] => Re.Eps
  | [r] => r
  | r :: rs' => Re.Alt r (alts rs')
  end.

Definition directive_Y : Re.regex :=        (* \d\d\d\d *)
  Re.Group "Y" (Re.seq [Re.dig; Re.dig; Re.dig; Re.dig]).
Definition directive_m : Re.regex :=        (* 1[0-2]|0[1-9]|[1-9] *)
  Re.Group "m" (alts [Re.Cat (Re.chr "1") (Re.rng "0" "2");
                      Re.Cat (Re.chr "0") (Re.rng "1" "9");
                      Re.rng "1" "9"]).
Definition directive_d : Re.regex :=        (* 3[0-1]|[1-2]\d|0[1-9]|[1-9]| [1-9] *)
  Re.Group "d" (alts [Re.Cat (Re.chr "3") (Re.rng "0" "1");
                      Re.Cat (Re.rng "1" "2") Re.dig;
                      Re.Cat (Re.chr "0") (Re.rng "1" "9");
                      Re.rng "1" "9";
                      Re.Cat (Re.chr " ") (Re.rng "1" "9")]).
Definition directive_H : Re.regex :=        (* 2[0-3]|[0-1]\d|\d *)
  Re.Group "H" (alts [Re.Cat (Re.chr "2") (Re.rng "0" "3");
                      Re.Cat (Re.rng "0" "1") Re.dig;
                      Re.dig]).
Definition directive_M : Re.regex :=        (* [0-5]\d|\d *)
  Re.Group "M" (alts [Re.Cat (Re.rng "0" "5") Re.dig; Re.dig]).
Definition directive_S : Re.regex :=        (* 6[0-1]|[0-5]\d|\d *)
  Re.Group "S" (alts [Re.Cat (Re.chr "6") (Re.rng "0" "1");
                      Re.Cat (Re.rng "0" "5") Re.dig;
                      Re.dig]).

(** The regular expression that [strptime] compiles from the format
    ["%Y-%m-%d %H:%M:%S"]: each directive by its pattern, the blank by
    [\s+], the other characters literally. *)
Definition format_regex : Re.regex :=
  Re.seq [directive_Y; Re.chr "-"; directive_m; Re.chr "-"; directive_d;
          Re.Many1 Re.Spc;
          directive_H; Re.chr ":"; directive_M; Re.chr ":"; directive_S].

(** [datetime.strptime(data_string, "%Y-%m-%d %H:%M:%S")] *)
Definition strptime (data_string : string) : ValueError + datetime :=
  match Re.match_ format_regex data_string with
  | None => inl (NoFormatMatch data_string)
  | Some (rest, found) =>
      if negb (String.eqb rest "") then inl (UnconvertedData rest)
      else
        let y := PyStr.int (Re.group "Y" found) in
        let m := PyStr.int (Re.group "m" found) in
        let d := PyStr.int (PyStr.lstrip (Re.group "d" found)) in
        let H := PyStr.int (Re.group "H" found) in
        let M := PyStr.int (Re.group "M" found) in
        let S := PyStr.int (Re.group "S" found) in
        match check_date_fields y m d with
        | Some e => inl e
        | None => new y m d H M S
        end
  end.

(** The comparison of naive date-times: the fields in lexicographic
    order. *)
Definition compare (a b : datetime) : comparison :=
  match year a ?= year b with
  | Eq =>
      match month a ?= month b with
      | Eq =>
          match day a ?= day b with
          | Eq =>
              match hour a ?= hour b with
              | Eq =>
                  match minute a ?= minute b with
                  | Eq => second a ?= second b
                  | c => c
                  end
              | c => c
              end
          | c => c
          end
      | c => c
      end
  | c => c
  end.

(** [a < b] *)
Definition ltb (a b : datetime) : bool :=
  match compare a b with Lt => true | _ => false end.

(** [a <= b] *)
Definition leb (a b : datetime) : bool :=
  match compare a b with Gt => false | _ => true end.

End Datetime.

(** ** The operating system, as far as the program calls it *)

(** The exceptions that the calls of the program can raise and that it
    does not catch. *)
Inductive Exception : Type :=
| OSError (filename : string)
    (* from [open(filename)] and from [os.path.getctime(filename)] *)
| UnicodeDecodeError (filename : string).
    (* from the iteration over the lines of the file *)

Module Os.

(** The primitives the program (and its specification) refer to.  A
    value of this record is a snapshot of the file system during one
    run. *)
Record OS : Type := mk {
  path_exists : string -> bool;            (* os.path.exists(p) *)
  path_isfile : string -> bool;            (* os.path.isfile(p) *)
  glob : string -> list string;            (* glob.glob(pattern) *)
  path_getctime : string -> option Q;
    (* os.path.getctime(p); [None] when it raises [OSError]: the path
       cannot be stat'ed (a dangling link, a file removed meanwhile) *)
  open_read : string -> option (list string * option Exception)
    (* [open(p, 'r')] and the iteration over the file: [None] when
       [open] raises [OSError]; otherwise the lines that the iteration
       delivers, each with its line end, and the exception that ends
       the iteration instead of the end of the file, if any *)
}.

(** The file can be opened and is read to its end: its lines. *)
Definition read_lines (os : OS) (p : string) : option (list string) :=
  match open_read os p with
  | Some (lines, None) => Some lines
  | _ => None
  end.

(** [a > b] on floats. *)
Definition gtb (a b : Q) : bool := negb (Qle_bool a b).

(** The loop of [max]: the key of every item is computed once, in the
    order of the items; an exception of the key ends the loop. *)
Fixpoint max_from {A E : Type} (key : A -> E + Q)
         (maxitem : A) (maxval : Q) (items : list A) : E + A :=
  match items with
  | [] => inr maxitem
  | item :: items' =>
      match key item with
      | inl e => inl e
      | inr val =>
          if gtb val maxval
          then max_from key item val items'
          else max_from key maxitem maxval items'
      end
  end.

(** [max(c :: cs, key=key)]: the first item whose key is maximal, or
    the exception of the first key that raises. *)
Definition max_by_key {A E : Type} (key : A -> E + Q) (c : A) (cs : list A)
  : E + A :=
  match key c with
  | inl e => inl e
  | inr val => max_from key c val cs
  end.

End Os.

(** ** The program *)

Import Datetime(datetime, ValueError).

(** One constructor per [print] statement, with the values it
    interpolates. *)
Inductive Output : Type :=
| PrintChecking (filename : string)
    (* Checking {filename}... *)
| PrintBackwards (line_num : Z) (last_dt current_dt : datetime)
    (* Error at line {line_num}: Time went backwards! {last_dt} -> {current_dt} *)
| PrintLine (stripped : string)
    (* Line: {line.strip()} *)
| PrintParseError (line_num : Z) (e : ValueError)
    (* Parse error line {line_num}: {e} *)
| PrintSuccess
    (* SUCCESS: Logs are in chronological order. *)
| PrintFailed (errors : Z)
    (* FAILED: Found {errors} ordering errors. *)
| PrintUsage
    (* Usage: verify_logs.py <logfile> *)
| PrintTargeting (target : string)
    (* Targeting latest log file: {target} *)
| PrintNotFound (target : string).
    (* Could not find log file {target} *)

(** How the process ends: [sys.exit(code)], or an exception that nothing
    catches. *)
Inductive Outcome : Type :=
| SysExit (code : Z)
| Uncaught (e : Exception).

(** A run of the process: what it printed and how it ended. *)
Record Run : Type := mkRun {
  stdout : list Output;
  outcome : Outcome
}.

(** The exit status of the process: the argument of [sys.exit], and 1
    after an uncaught exception. *)
Definition exit_status (r : Run) : Z :=
  match outcome r with
  | SysExit code => code
  | Uncaught _ => 1
  end.

(** [r] after the process has already printed [o]. *)
Definition after (o : list Output) (r : Run) : Run :=
  mkRun (o ++ stdout r) (outcome r).

(** [timestamp_pattern = re.compile(r'^(\d{4}-\d{2}-\d{2} \d{2}:\d{2}:\d{2})')] *)
Definition timestamp_pattern : Re.regex :=
  Re.Group "1"
    (Re.seq [Re.Rep 4 Re.dig; Re.chr "-"; Re.Rep 2 Re.dig; Re.chr "-";
             Re.Rep 2 Re.dig; Re.chr " ";
             Re.Rep 2 Re.dig; Re.chr ":"; Re.Rep 2 Re.dig; Re.chr ":";
             Re.Rep 2 Re.dig]).

(** [timestamp_pattern.match(line)], and [match.group(1)] when it
    matches. *)
Definition timestamp_match (line : string) : option string :=
  match Re.match_ timestamp_pattern line with
  | Some (_, groups) => Some (Re.group "1" groups)
  | None => None
  end.

(** The local variables of [check_log_order] during the scan, and what
    the scan has printed so far. *)
Record ScanState : Type := mkScan {
  last_dt : option datetime;
  line_num : Z;
  errors : Z;
  printed : list Output
}.

(** The state before the first line. *)
Definition scan_init : ScanState := mkScan None 0 0 [].

(** [print(x)] *)
Definition print (x : Output) (st : ScanState) : ScanState :=
  mkScan (last_dt st) (line_num st) (errors st) (printed st ++ [x]).

(** Lines 18 to 32: count the line, match the time stamp, compare it
    with the last one.  In [last_dt and current_dt < last_dt] the left
    operand is false for [None] only: a [datetime] is always true. *)
Definition timestamp_step (st : ScanState) (line : string) : ScanState :=
  let st := mkScan (last_dt st) (line_num st + 1) (errors st) (printed st) in
  match timestamp_match line with
  | Some dt_str =>
      match Datetime.strptime dt_str with
      | inr current_dt =>
          let st :=
            match last_dt st with
            | Some l =>
                if Datetime.ltb current_dt l then
                  let st := print (PrintBackwards (line_num st) l current_dt) st in
                  let st := print (PrintLine (PyStr.strip line)) st in
                  mkScan (last_dt st) (line_num st) (errors st + 1) (printed st)
                else st
            | None => st
            end in
          mkScan (Some current_dt) (line_num st) (errors st) (printed st)
      | inl e => print (PrintParseError (line_num st) e) st
      end
  | None => st
  end.

(** Lines 34 to 37: the condition is evaluated, both branches do
    nothing. *)
Definition content_heuristic (line : string) : unit :=
  if negb (PyStr.contains "load test" line) && negb (PyStr.contains "Thread" line)
  then tt
  else tt.

(** The body of [for line in f]. *)
Definition loop_body (st : ScanState) (line : string) : ScanState :=
  let st := timestamp_step st line in
  match content_heuristic line with
  | tt => st
  end.

(** [for line in f: ...] from a given state. *)
Definition scan_from (st : ScanState) (lines : list string) : ScanState :=
  fold_left loop_body lines st.

Definition scan (lines : list string) : ScanState := scan_from scan_init lines.

(** Lines 39 to 44: the summary and the exit. *)
Definition summary (st : ScanState) : Run :=
  if errors st =? 0
  then mkRun (printed st ++ [PrintSuccess]) (SysExit 0)
  else mkRun (printed st ++ [PrintFailed (errors st)]) (SysExit 1).

(** [check_log_order(filename)]: when [open] raises, nothing but the
    first line is printed; when the iteration raises (outside the [try]
    of the loop body), the scan stops after the lines delivered, without
    a summary. *)
Definition check_log_order (os : Os.OS) (filename : string) : Run :=
  after [PrintChecking filename]
    match Os.open_read os filename with
    | Some (lines, None) => summary (scan lines)
    | Some (lines, Some e) => mkRun (printed (scan lines)) (Uncaught e)
    | None => mkRun [] (Uncaught (OSError filename))
    end.

(** [os.path.getctime(p)], the key of [max] at line 61. *)
Definition getctime (os : Os.OS) (p : string) : Exception + Q :=
  match Os.path_getctime os p with
  | Some t => inr t
  | None => inl (OSError p)
  end.

(** Lines 56 to 65: the exception that escapes from [max], or what was
    printed and the file to check, [None] when the process exits with
    status 1. *)
Definition resolve_target (os : Os.OS) (target : string)
  : Exception + (list Output * option string) :=
  if negb (Os.path_exists os target) then
    match Os.glob os (String.append target ".*") with
    | c :: cs =>
        match Os.max_by_key (getctime os) c cs with
        | inr target => inr ([PrintTargeting target], Some target)
        | inl e => inl e
        end
    | [] => inr ([PrintNotFound target], None)
    end
  else inr ([], Some target).

(** The block under [if __name__ == "__main__"], for [sys.argv = argv]. *)
Definition main (os : Os.OS) (argv : list string) : Run :=
  if Z.of_nat (List.length argv) <? 2 then mkRun [PrintUsage] (SysExit 1)
  else
    match resolve_target os (nth 1 argv "") with
    | inr (o, Some target) => after o (check_log_order os target)
    | inr (o, None) => mkRun o (SysExit 1)
    | inl e => mkRun [] (Uncaught e)
    end.

(** ** The program without the content heuristic

    The same program with lines 34 to 37 removed. *)

Definition scan_without_heuristic (lines : list string) : ScanState :=
  fold_left timestamp_step lines scan_init.

Definition check_log_order_without_heuristic (os : Os.OS) (filename : string) : Run :=
  after [PrintChecking filename]
    match Os.open_read os filename with
    | Some (lines, None) => summary (scan_without_heuristic lines)
    | Some (lines, Some e) =>
        mkRun (printed (scan_without_heuristic lines)) (Uncaught e)
    | None => mkRun [] (Uncaught (OSError filename))
    end.

Definition main_without_heuristic (os : Os.OS) (argv : list string) : Run :=
  if Z.of_nat (List.length argv) <? 2 then mkRun [PrintUsage] (SysExit 1)
  else
    match resolve_target os (nth 1 argv "") with
    | inr (o, Some target) => after o (check_log_order_without_heuristic os target)
    | inr (o, None) => mkRun o (SysExit 1)
    | inl e => mkRun [] (Uncaught e)
    end.

(** ** Notions of the specification *)

(** The shape [YYYY-MM-DD HH:MM:SS], character by character. *)
Definition timestamp_shape : list Re.cls :=
  [Re.Dig; Re.Dig; Re.Dig; Re.Dig; Re.Chr "-"; Re.Dig; Re.Dig; Re.Chr "-";
   Re.Dig; Re.Dig; Re.Chr " "; Re.Dig; Re.Dig; Re.Chr ":"; Re.Dig; Re.Dig;
   Re.Chr ":"; Re.Dig; Re.Dig].

(** [s] has exactly the characters that the classes [ks] allow. *)
Fixpoint has_shape (ks : list Re.cls) (s : string) : bool :=
  match ks, s with
  | [], EmptyString => true
  | k :: ks', String a s' => Re.cls_ok k a && has_shape ks' s'
  | _, _ => false
  end.

(** The line begins, at its very first character, with a string of the
    shape [YYYY-MM-DD HH:MM:SS]. *)
Definition begins_with_timestamp (line : string) : Prop :=
  exists ts rest,
    line = String.append ts rest /\ has_shape timestamp_shape ts = true.

(** The time stamp of a line: its leading text has the shape and parses
    into a valid date and time. *)
Definition parsed_timestamp (line : string) : option datetime :=
  match timestamp_match line with
  | Some dt_str =>
      match Datetime.strptime dt_str with
      | inr dt => Some dt
      | inl _ => None
      end
  | None => None
  end.

(** The successfully parsed time stamps of a file, in the order of its
    lines. *)
Fixpoint timestamps (lines : list string) : list datetime :=
  match lines with
  | [] => []
  | line :: lines' =>
      match parsed_timestamp line with
      | Some dt => dt :: timestamps lines'
      | None => timestamps lines'
      end
  end.

(** Each time stamp is greater than or equal to the one before it. *)
Definition nondecreasing (ts : list datetime) : Prop :=
  LocallySorted (fun a b => Datetime.leb a b = true) ts.

(** The number of time stamps that are strictly earlier than the
    immediately preceding one. *)
Fixpoint count_backward (ts : list datetime) : nat :=
  match ts with
  | a :: (b :: _) as ts' =>
      ((if Datetime.ltb b a then 1 else 0) + count_backward ts')%nat
  | _ => 0%nat
  end.

(** The reports of an ordering violation among the printed events. *)
Definition is_backwards_report (o : Output) : bool :=
  match o with
  | PrintBackwards _ _ _ => true
  | _ => false
  end.

Definition is_parse_error_report (o : Output) : bool :=
  match o with
  | PrintParseError _ _ => true
  | _ => false
  end.


(** A printed event without the text of the echoed line. *)
Definition without_line_text (o : Output) : Output :=
  match o with
  | PrintLine _ => PrintLine ""
  | _ => o
  end.

(** The last-seen time stamp as a list of at most one element. *)
Definition baseline (st : ScanState) : list datetime :=
  match last_dt st with
  | Some l => [l]
  | None => []
  end.

(** ** A small file system for examples

    A flat directory listing; [glob] interprets the wild cards [*] and
    [?] (no bracket expressions) on the listed names. *)

Module Fs.

Inductive kind : Type :=
| Regular (lines : list string)
| Directory
| DanglingLink
    (* a symbolic link to nothing: listed by [glob], but it does not
       exist for [os.path.exists] and cannot be stat'ed or opened *)
| Undecodable (lines : list string).
    (* a regular file whose bytes after these lines are not text in the
       encoding of [open] *)

Record node : Type := mkNode {
  name : string;
  what : kind;
  ctime : Q
}.

Definition listing : Type := list node.

Definition lookup (fs : listing) (p : string) : option node :=
  find (fun n => String.eqb (name n) p) fs.

(** [fnmatch] with [*] and [?]; [*] does not cross a [/]. *)
Fixpoint fnmatch (pat s : string) : bool :=
  match pat with
  | EmptyString => String.eqb s ""
  | String p pat' =>
      if Ascii.eqb p "*" then
        (fix star (s : string) : bool :=
           fnmatch pat' s
           || match s with
              | String a s' => negb (Ascii.eqb a "/") && star s'
              | EmptyString => false
              end) s
      else
        match s with
        | String a s' =>
            (Ascii.eqb p "?" || Ascii.eqb p a) && fnmatch pat' s'
        | EmptyString => false
        end
  end.

Definition to_os (fs : listing) : Os.OS :=
  Os.mk
    (fun p => match lookup fs p with
              | Some (mkNode _ DanglingLink _) => false
              | Some _ => true
              | None => false
              end)
    (fun p => match lookup fs p with
              | Some (mkNode _ (Regular _) _) => true
              | Some (mkNode _ (Undecodable _) _) => true
              | _ => false
              end)
    (fun pat => map name (filter (fun n => fnmatch pat (name n)) fs))
    (fun p => match lookup fs p with
              | Some (mkNode _ DanglingLink _) => None
              | Some n => Some (ctime n)
              | None => None
              end)
    (fun p => match lookup fs p with
              | Some (mkNode _ (Regular lines) _) => Some (lines, None)
              | Some (mkNode _ (Undecodable lines) _) =>
                  Some (lines, Some (UnicodeDecodeError p))
              | _ => None
              end).

End Fs.

(** ** Example files and file systems *)

(** A line of text with its line end. *)
Definition ln (s : string) : string :=
  String.append s (String (ascii_of_nat 10) EmptyString).

(** The three lines of the example of the specification. *)
Definition example_lines : list string :=
  [ln "2025-01-28 09:03:08 Thread-1 load test start";
   ln "2025-01-28 09:03:10 Thread-2 load test continue";
   ln "2025-01-28 09:03:05 Thread-3 load test anomaly"].

(** A file in chronological order, with a line without time stamp and a
    repeated time stamp. *)
Definition ordered_lines : list string :=
  [ln "2025-01-28 09:03:08 Thread-1 load test start";
   ln "   continuation of the previous entry";
   ln "2025-01-28 09:03:08 Thread-2 load test continue";
   ln "2025-01-29 00:00:00 Thread-1 load test end"].

(** A file whose second line has the shape of a time stamp and month 13. *)
Definition month13_lines : list string :=
  [ln "2025-01-28 09:03:08 Thread-1 load test start";
   ln "2025-13-28 09:03:09 Thread-2 load test continue";
   ln "2025-01-28 09:03:07 Thread-3 load test anomaly"].

(** Time stamps 10, 05, 07: the third is compared with the second. *)
Definition no_rollback_lines : list string :=
  [ln "2025-01-28 09:03:10 a";
   ln "2025-01-28 09:03:05 b";
   ln "2025-01-28 09:03:07 c"].

Definition world_example : Os.OS :=
  Fs.to_os [Fs.mkNode "app.log" (Fs.Regular example_lines) 1700000000;
            Fs.mkNode "ordered.log" (Fs.Regular ordered_lines) 1700000100;
            Fs.mkNode "month13.log" (Fs.Regular month13_lines) 1700000200].

(** Two rotated logs, and no file of the name itself. *)
Definition world_rotated : Os.OS :=
  Fs.to_os [Fs.mkNode "stress_test_log.1700000000" (Fs.Regular ordered_lines) 1700000000;
            Fs.mkNode "stress_test_log.1700000500" (Fs.Regular example_lines) 1700000500;
            Fs.mkNode "other.log" (Fs.Regular []) 1700000900].

(** A directory of the requested name, next to a rotated log. *)
Definition world_directory : Os.OS :=
  Fs.to_os [Fs.mkNode "logs" Fs.Directory 1700000000;
            Fs.mkNode "logs.1700000500" (Fs.Regular ordered_lines) 1700000500].

(** A dangling link among the rotated logs, and no file of the name
    itself. *)
Definition world_dangling : Os.OS :=
  Fs.to_os [Fs.mkNode "stress_test_log.1700000000" Fs.DanglingLink 1700000000;
            Fs.mkNode "stress_test_log.1700000500" (Fs.Regular ordered_lines) 1700000500].


(** ** Auxiliary notions for the proofs about the matcher *)

(** The rest of [s] after a prefix with the shape [ks]. *)
Fixpoint drop_shape (ks : list Re.cls) (s : string) : option string :=
  match ks with
  | [] => Some s
  | k :: ks' =>
      match s with
      | String a s' => if Re.cls_ok k a then drop_shape ks' s' else None
      | EmptyString => None
      end
  end.

(** The shape of the strings that a regular expression without
    alternatives, repetitions of unknown length and groups matches. *)
Fixpoint classes_of (r : Re.regex) : option (list Re.cls) :=
  match r with
  | Re.Eps => Some []
  | Re.One k => Some [k]
  | Re.Cat r1 r2 =>
      match classes_of r1, classes_of r2 with
      | Some ks1, Some ks2 => Some (ks1 ++ ks2)
      | _, _ => None
      end
  | Re.Rep n r' =>
      match classes_of r' with
      | Some ks => Some (List.concat (repeat ks n))
      | None => None
      end
  | _ => None
  end.

(** * Properties *)

(** ** Strings and the matcher *)

Lemma append_assoc (a b c : string) :
  String.append (String.append a b) c = String.append a (String.append b c).
Proof.
  induction a as [|x a IH]; simpl; [reflexivity|now rewrite IH].
Qed.

Lemma length_append (a b : string) :
  String.length (String.append a b) = (String.length a + String.length b)%nat.
Proof.
  induction a as [|x a IH]; simpl; [reflexivity|now rewrite IH].
Qed.

Lemma take_append (pre rest : string) :
  PyStr.take (String.length pre) (String.append pre rest) = pre.
Proof.
  induction pre as [|x pre IH]; simpl; [now destruct rest|now rewrite IH].
Qed.

Lemma consumed_append (pre rest : string) :
  Re.consumed (String.append pre rest) rest = pre.
Proof.
  unfold Re.consumed. rewrite length_append.
  replace (String.length pre + String.length rest - String.length rest)%nat
    with (String.length pre) by lia.
  apply take_append.
Qed.

Lemma drop_shape_app (ks1 ks2 : list Re.cls) (s : string) :
  drop_shape (ks1 ++ ks2) s =
  match drop_shape ks1 s with
  | Some rest => drop_shape ks2 rest
  | None => None
  end.
Proof.
  revert s. induction ks1 as [|k ks1 IH]; intros s; simpl; [reflexivity|].
  destruct s as [|a s]; [reflexivity|].
  destruct (Re.cls_ok k a); [apply IH|reflexivity].
Qed.

(** A prefix of the shape [ks] can be dropped exactly when the string
    is such a prefix followed by the rest. *)
Lemma drop_shape_iff (ks : list Re.cls) (s rest : string) :
  drop_shape ks s = Some rest <->
  exists pre, s = String.append pre rest /\ has_shape ks pre = true.
Proof.
  revert s. induction ks as [|k ks IH]; intros s; simpl.
  - split.
    + intros [= ->]. exists EmptyString. now split.
    + intros (pre & -> & H). destruct pre; [reflexivity|discriminate].
  - destruct s as [|a s].
    + split; [discriminate|].
      intros (pre & E & H). destruct pre; [discriminate|]. discriminate.
    + split.
      * destruct (Re.cls_ok k a) eqn:Ek; [|discriminate].
        intros H. apply IH in H. destruct H as (pre & -> & H).
        exists (String a pre). simpl. rewrite Ek. now split.
      * intros (pre & E & H). destruct pre as [|b pre]; [discriminate|].
        simpl in E. injection E as -> ->.
        apply andb_true_iff in H. destruct H as [Ek H]. rewrite Ek.
        apply IH. now exists pre.
Qed.

(** On a regular expression that is a plain sequence of character
    classes the matcher is deterministic: it drops the shape and goes on. *)
Lemma run_classes {A : Type} (r : Re.regex) :
  forall (ks : list Re.cls), classes_of r = Some ks ->
  forall (s : string) (env : Re.captures) (kont : string -> Re.captures -> option A),
    Re.run r s env kont =
    match drop_shape ks s with
    | Some rest => kont rest env
    | None => None
    end.
Proof.
  induction r as [|k|k|r1 IH1 r2 IH2|r1 IH1 r2 IH2|n r IH|name r IH];
    intros ks Hks s env kont; simpl in Hks; try discriminate.
  - injection Hks as <-. reflexivity.
  - injection Hks as <-. simpl. destruct s as [|a s]; [reflexivity|].
    destruct (Re.cls_ok k a); reflexivity.
  - destruct (classes_of r1) as [ks1|]; [|discriminate].
    destruct (classes_of r2) as [ks2|]; [|discriminate].
    injection Hks as <-. simpl.
    rewrite (IH1 ks1 eq_refl), drop_shape_app.
    destruct (drop_shape ks1 s) as [rest|]; [|reflexivity].
    apply (IH2 ks2 eq_refl).
  - destruct (classes_of r) as [ks'|]; [|discriminate].
    injection Hks as <-. simpl.
    revert s env. induction n as [|n IHn]; intros s env; simpl; [reflexivity|].
    rewrite (IH ks' eq_refl), drop_shape_app.
    destruct (drop_shape ks' s) as [rest|]; [|reflexivity].
    apply IHn.
Qed.

(** [timestamp_pattern.match(line)] drops the shape
    [YYYY-MM-DD HH:MM:SS] from the start of the line. *)
Lemma timestamp_match_drop (line : string) :
  timestamp_match line =
  match drop_shape timestamp_shape line with
  | Some rest => Some (Re.consumed line rest)
  | None => None
  end.
Proof.
  unfold timestamp_match, Re.match_, timestamp_pattern.
  cbn [Re.run].
  erewrite run_classes by reflexivity.
  change (List.concat (repeat [Re.Dig] 4) ++ _) with timestamp_shape.
  destruct (drop_shape timestamp_shape line); reflexivity.
Qed.

(** The pattern matches exactly the lines that begin with a string of
    the shape, and group 1 is that string. *)
Lemma timestamp_match_Some (line ts : string) :
  timestamp_match line = Some ts <->
  exists rest, line = String.append ts rest /\ has_shape timestamp_shape ts = true.
Proof.
  rewrite timestamp_match_drop. split.
  - destruct (drop_shape timestamp_shape line) as [rest|] eqn:E; [|discriminate].
    apply drop_shape_iff in E. destruct E as (pre & -> & H).
    rewrite consumed_append. intros [= <-]. now exists rest.
  - intros (rest & -> & H).
    assert (E : drop_shape timestamp_shape (String.append ts rest) = Some rest)
      by (apply drop_shape_iff; now exists ts).
    rewrite E, consumed_append. reflexivity.
Qed.

Lemma timestamp_match_None (line : string) :
  timestamp_match line = None <-> ~ begins_with_timestamp line.
Proof.
  split.
  - intros H (ts & rest & E & Hs).
    assert (timestamp_match line = Some ts)
      by (apply timestamp_match_Some; now exists rest).
    congruence.
  - intros H. destruct (timestamp_match line) as [ts|] eqn:E; [|reflexivity].
    exfalso. apply H. apply timestamp_match_Some in E.
    destruct E as (rest & E & Hs). now exists ts, rest.
Qed.

(** ** The order of date-times *)

Lemma compare_antisym (a b : datetime) :
  Datetime.compare b a = CompOpp (Datetime.compare a b).
Proof.
  unfold Datetime.compare.
  rewrite (Z.compare_antisym (Datetime.year a) (Datetime.year b)),
    (Z.compare_antisym (Datetime.month a) (Datetime.month b)),
    (Z.compare_antisym (Datetime.day a) (Datetime.day b)),
    (Z.compare_antisym (Datetime.hour a) (Datetime.hour b)),
    (Z.compare_antisym (Datetime.minute a) (Datetime.minute b)),
    (Z.compare_antisym (Datetime.second a) (Datetime.second b)).
  destruct (Datetime.year a ?= Datetime.year b); simpl; try reflexivity.
  destruct (Datetime.month a ?= Datetime.month b); simpl; try reflexivity.
  destruct (Datetime.day a ?= Datetime.day b); simpl; try reflexivity.
  destruct (Datetime.hour a ?= Datetime.hour b); simpl; try reflexivity.
  destruct (Datetime.minute a ?= Datetime.minute b); simpl; reflexivity.
Qed.

(** [b < a] is the negation of [a <= b]: the order is total. *)
Lemma ltb_negb_leb (a b : datetime) :
  Datetime.ltb b a = negb (Datetime.leb a b).
Proof.
  unfold Datetime.ltb, Datetime.leb. rewrite compare_antisym.
  destruct (Datetime.compare a b); reflexivity.
Qed.

(** ** One iteration of the loop *)

Lemma loop_body_step (st : ScanState) (line : string) :
  loop_body st line = timestamp_step st line.
Proof.
  unfold loop_body. destruct (content_heuristic line). reflexivity.
Qed.

Lemma scan_from_cons (st : ScanState) (line : string) (lines : list string) :
  scan_from st (line :: lines) = scan_from (loop_body st line) lines.
Proof. reflexivity. Qed.

Lemma scan_from_app (st : ScanState) (l1 l2 : list string) :
  scan_from st (l1 ++ l2) = scan_from (scan_from st l1) l2.
Proof. apply fold_left_app. Qed.

Lemma step_no_match (st : ScanState) (line : string) :
  timestamp_match line = None ->
  timestamp_step st line =
  mkScan (last_dt st) (line_num st + 1) (errors st) (printed st).
Proof.
  intros H. unfold timestamp_step. rewrite H. reflexivity.
Qed.

Lemma step_parse_error (st : ScanState) (line dt_str : string) (e : ValueError) :
  timestamp_match line = Some dt_str ->
  Datetime.strptime dt_str = inl e ->
  timestamp_step st line =
  mkScan (last_dt st) (line_num st + 1) (errors st)
         (printed st ++ [PrintParseError (line_num st + 1) e]).
Proof.
  intros Hm Hp. unfold timestamp_step. rewrite Hm, Hp. reflexivity.
Qed.

Lemma step_first (st : ScanState) (line : string) (dt : datetime) :
  parsed_timestamp line = Some dt ->
  last_dt st = None ->
  timestamp_step st line =
  mkScan (Some dt) (line_num st + 1) (errors st) (printed st).
Proof.
  unfold parsed_timestamp, timestamp_step. intros Hp Hl.
  destruct (timestamp_match line) as [s|]; [|discriminate].
  destruct (Datetime.strptime s) as [e|d]; [discriminate|].
  injection Hp as ->. simpl. rewrite Hl. reflexivity.
Qed.

Lemma step_in_order (st : ScanState) (line : string) (dt l : datetime) :
  parsed_timestamp line = Some dt ->
  last_dt st = Some l ->
  Datetime.ltb dt l = false ->
  timestamp_step st line =
  mkScan (Some dt) (line_num st + 1) (errors st) (printed st).
Proof.
  unfold parsed_timestamp, timestamp_step. intros Hp Hl Hlt.
  destruct (timestamp_match line) as [s|]; [|discriminate].
  destruct (Datetime.strptime s) as [e|d]; [discriminate|].
  injection Hp as ->. simpl. rewrite Hl, Hlt. reflexivity.
Qed.

Lemma step_backwards (st : ScanState) (line : string) (dt l : datetime) :
  parsed_timestamp line = Some dt ->
  last_dt st = Some l ->
  Datetime.ltb dt l = true ->
  timestamp_step st line =
  mkScan (Some dt) (line_num st + 1) (errors st + 1)
         ((printed st ++ [PrintBackwards (line_num st + 1) l dt])
            ++ [PrintLine (PyStr.strip line)]).
Proof.
  unfold parsed_timestamp, timestamp_step. intros Hp Hl Hlt.
  destruct (timestamp_match line) as [s|]; [|discriminate].
  destruct (Datetime.strptime s) as [e|d]; [discriminate|].
  injection Hp as ->. simpl. rewrite Hl, Hlt. reflexivity.
Qed.

(** A line without a parsed time stamp prints at most a parse error and
    changes neither the baseline nor the count. *)
Lemma step_unparsed (st : ScanState) (line : string) :
  parsed_timestamp line = None ->
  exists diag,
    timestamp_step st line =
    mkScan (last_dt st) (line_num st + 1) (errors st) (printed st ++ diag)
    /\ Forall (fun o => is_parse_error_report o = true) diag.
Proof.
  unfold parsed_timestamp. intros Hp.
  destruct (timestamp_match line) as [s|] eqn:Hm.
  - destruct (Datetime.strptime s) as [e|d] eqn:Hs; [|discriminate].
    exists [PrintParseError (line_num st + 1) e]. split.
    + now apply step_parse_error with (dt_str := s).
    + repeat constructor.
  - exists []. rewrite app_nil_r. split; [now apply step_no_match|constructor].
Qed.

(** ** The whole scan *)

(** Splits on what one iteration does with [line] in state [st] and
    rewrites the iteration accordingly. *)
Ltac step_cases st line :=
  let dt := fresh "dt" in
  let l := fresh "l" in
  let Hp := fresh "Hp" in
  let Hl := fresh "Hl" in
  let Hlt := fresh "Hlt" in
  let diag := fresh "diag" in
  let Hd := fresh "Hd" in
  let E := fresh "E" in
  destruct (parsed_timestamp line) as [dt|] eqn:Hp;
  [ destruct (last_dt st) as [l|] eqn:Hl;
    [ destruct (Datetime.ltb dt l) eqn:Hlt;
      [ rewrite (step_backwards st line dt l Hp Hl Hlt)
      | rewrite (step_in_order st line dt l Hp Hl Hlt) ]
    | rewrite (step_first st line dt Hp Hl) ]
  | destruct (step_unparsed st line Hp) as (diag & E & Hd); rewrite E ].

Lemma timestamps_cons (line : string) (lines : list string) :
  timestamps (line :: lines) =
  match parsed_timestamp line with
  | Some dt => dt :: timestamps lines
  | None => timestamps lines
  end.
Proof. reflexivity. Qed.

Lemma scan_from_line_num (lines : list string) :
  forall st, line_num (scan_from st lines) = line_num st + Z.of_nat (List.length lines).
Proof.
  induction lines as [|line lines IH]; intros st.
  - simpl. lia.
  - rewrite scan_from_cons, IH, loop_body_step.
    replace (Z.of_nat (List.length (line :: lines)))
      with (1 + Z.of_nat (List.length lines)) by (simpl List.length; lia).
    step_cases st line; cbn [line_num]; lia.
Qed.

(** The counter after the scan: one more for every time stamp that is
    earlier than the one before it, the baseline of the initial state
    included. *)
Lemma scan_from_errors (lines : list string) :
  forall st,
    errors (scan_from st lines) =
    errors st + Z.of_nat (count_backward (baseline st ++ timestamps lines)).
Proof.
  induction lines as [|line lines IH]; intros st.
  - simpl. rewrite app_nil_r. unfold baseline.
    destruct (last_dt st); simpl; lia.
  - rewrite scan_from_cons, IH, loop_body_step, timestamps_cons.
    unfold baseline at 2.
    step_cases st line; unfold baseline; cbn [last_dt errors app count_backward];
      try rewrite Hlt; try rewrite Hl; cbn [app]; lia.
Qed.

(** The reports printed by the scan: one for every such time stamp. *)
Lemma scan_from_reports (lines : list string) :
  forall st,
    List.length (filter is_backwards_report (printed (scan_from st lines))) =
    (List.length (filter is_backwards_report (printed st))
     + count_backward (baseline st ++ timestamps lines))%nat.
Proof.
  assert (Hpe : forall diag,
             Forall (fun o => is_parse_error_report o = true) diag ->
             filter is_backwards_report diag = []).
  { induction 1 as [|o diag Ho _ IH]; [reflexivity|].
    simpl. destruct o; try discriminate. exact IH. }
  induction lines as [|line lines IH]; intros st.
  - simpl. rewrite app_nil_r. unfold baseline.
    destruct (last_dt st); simpl; lia.
  - rewrite scan_from_cons, IH, loop_body_step, timestamps_cons.
    unfold baseline at 2.
    step_cases st line; unfold baseline; cbn [last_dt printed app count_backward];
      try rewrite Hlt; try rewrite Hl; cbn [app];
      rewrite ?filter_app, ?length_app; try rewrite (Hpe _ Hd);
      simpl; lia.
Qed.

(** A scan over non-decreasing time stamps counts nothing and prints
    parse errors only. *)
Lemma scan_from_ordered (lines : list string) :
  forall st,
    nondecreasing (baseline st ++ timestamps lines) ->
    exists diag,
      printed (scan_from st lines) = printed st ++ diag
      /\ Forall (fun o => is_parse_error_report o = true) diag
      /\ errors (scan_from st lines) = errors st.
Proof.
  induction lines as [|line lines IH]; intros st Hs.
  - exists []. simpl. rewrite app_nil_r. repeat split. constructor.
  - rewrite scan_from_cons, loop_body_step.
    rewrite timestamps_cons in Hs. unfold baseline in Hs.
    step_cases st line.
    + (* a time stamp earlier than the baseline: excluded *)
      simpl in Hs. inversion Hs as [| |a b rest Hs' Hab]; subst.
      rewrite ltb_negb_leb, Hab in Hlt. discriminate.
    + simpl in Hs. inversion Hs as [| |a b rest Hs' Hab]; subst.
      destruct (IH (mkScan (Some dt) (line_num st + 1) (errors st) (printed st)))
        as (diag & Hpr & Hf & He); [exact Hs'|].
      exists diag. auto.
    + simpl in Hs.
      destruct (IH (mkScan (Some dt) (line_num st + 1) (errors st) (printed st)))
        as (diag & Hpr & Hf & He); [exact Hs|].
      exists diag. auto.
    + destruct (IH (mkScan (last_dt st) (line_num st + 1) (errors st)
                           (printed st ++ diag)))
        as (diag' & Hpr & Hf & He); [exact Hs|].
      exists (diag ++ diag'). simpl in Hpr, He.
      rewrite Hpr, app_assoc. repeat split; [|exact He].
      apply Forall_app. now split.
Qed.

(** What the scan has printed is never taken back. *)
Lemma scan_from_printed (lines : list string) :
  forall st, exists diag, printed (scan_from st lines) = printed st ++ diag.
Proof.
  induction lines as [|line lines IH]; intros st.
  - exists []. simpl. now rewrite app_nil_r.
  - rewrite scan_from_cons, loop_body_step.
    step_cases st line;
      match goal with
      | |- context [scan_from ?s lines] =>
          destruct (IH s) as (d & Hd'); rewrite Hd'; cbn [printed]
      end;
      rewrite <- ?app_assoc; eexists; reflexivity.
Qed.

(** The counter after the scan depends on the initial state through its
    baseline and its counter only. *)
Lemma scan_from_errors_ext (lines : list string) (st st' : ScanState) :
  last_dt st = last_dt st' ->
  errors st = errors st' ->
  errors (scan_from st lines) = errors (scan_from st' lines).
Proof.
  intros Hl He. rewrite !scan_from_errors. unfold baseline.
  now rewrite Hl, He.
Qed.

Lemma summary_outcome (st : ScanState) :
  outcome (summary st) = SysExit 0 \/ outcome (summary st) = SysExit 1.
Proof.
  unfold summary. destruct (errors st =? 0); simpl; auto.
Qed.

Lemma check_log_order_read (os : Os.OS) (filename : string) (lines : list string) :
  Os.read_lines os filename = Some lines ->
  check_log_order os filename =
  after [PrintChecking filename] (summary (scan lines)).
Proof.
  intros H. unfold check_log_order. unfold Os.read_lines in H.
  destruct (Os.open_read os filename) as [[ls [e|]]|]; try discriminate.
  now injection H as ->.
Qed.

(** ** The order of the files' creation times *)

Lemma gtb_true (a b : Q) : Os.gtb a b = true -> (b <= a)%Q.
Proof.
  unfold Os.gtb. intros H. apply negb_true_iff in H.
  destruct (Qlt_le_dec b a) as [Hlt|Hle].
  - now apply Qlt_le_weak.
  - apply Qle_bool_iff in Hle. congruence.
Qed.

Lemma gtb_false (a b : Q) : Os.gtb a b = false -> (a <= b)%Q.
Proof.
  unfold Os.gtb. intros H. apply negb_false_iff in H.
  now apply Qle_bool_iff.
Qed.

(** The loop of [max] over items whose keys can all be computed ends
    with one of the items, and none of them has a greater key. *)
Lemma max_from_spec {A E : Type} (key : A -> E + Q) (items : list A) :
  forall maxitem maxval,
    key maxitem = inr maxval ->
    (forall y, In y items -> exists q, key y = inr q) ->
    exists t qt,
      Os.max_from key maxitem maxval items = inr t
      /\ In t (maxitem :: items)
      /\ key t = inr qt
      /\ (maxval <= qt)%Q
      /\ forall y q, In y items -> key y = inr q -> (q <= qt)%Q.
Proof.
  induction items as [|item items IH]; intros maxitem maxval Hmax Hall.
  - exists maxitem, maxval. simpl. repeat split; auto.
    + apply Qle_refl.
    + intros y q [].
  - destruct (Hall item (or_introl eq_refl)) as (val & Hval).
    simpl. rewrite Hval.
    assert (Hall' : forall y, In y items -> exists q, key y = inr q)
      by (intros y Hy; apply Hall; now right).
    destruct (Os.gtb val maxval) eqn:Eg.
    + destruct (IH item val Hval Hall') as (t & qt & Ht & Hin & Hk & Hle & Hm).
      exists t, qt. split; [exact Ht|]. split; [now right|].
      split; [exact Hk|]. split.
      * apply Qle_trans with val; [now apply gtb_true|exact Hle].
      * intros y q [<-|Hy] Hq; [|now apply (Hm y)].
        rewrite Hval in Hq. now injection Hq as <-.
    + destruct (IH maxitem maxval Hmax Hall') as (t & qt & Ht & Hin & Hk & Hle & Hm).
      exists t, qt. split; [exact Ht|]. split.
      { destruct Hin as [<-|Hin]; [now left|right; now right]. }
      split; [exact Hk|]. split; [exact Hle|].
      intros y q [<-|Hy] Hq; [|now apply (Hm y)].
      rewrite Hval in Hq. injection Hq as <-.
      apply Qle_trans with maxval; [now apply gtb_false|exact Hle].
Qed.

(** [max] over candidates whose keys can all be computed returns one of
    the candidates, and none of them is newer. *)
Lemma max_by_key_spec {A E : Type} (key : A -> E + Q) (cs : list A) (c : A) :
  (forall y, In y (c :: cs) -> exists q, key y = inr q) ->
  exists t qt,
    Os.max_by_key key c cs = inr t
    /\ In t (c :: cs)
    /\ key t = inr qt
    /\ forall y q, In y (c :: cs) -> key y = inr q -> (q <= qt)%Q.
Proof.
  intros Hall. destruct (Hall c (or_introl eq_refl)) as (val & Hval).
  unfold Os.max_by_key. rewrite Hval.
  destruct (max_from_spec key cs c val Hval) as (t & qt & Ht & Hin & Hk & Hle & Hm).
  { intros y Hy. apply Hall. now right. }
  exists t, qt. split; [exact Ht|]. split; [exact Hin|]. split; [exact Hk|].
  intros y q [<-|Hy] Hq; [|now apply (Hm y)].
  rewrite Hval in Hq. now injection Hq as <-.
Qed.

(** The key of [max] at line 61 is a time exactly when the path can be
    stat'ed. *)
Lemma getctime_inr (os : Os.OS) (p : string) (q : Q) :
  getctime os p = inr q <-> Os.path_getctime os p = Some q.
Proof.
  unfold getctime. destruct (Os.path_getctime os p); split; congruence.
Qed.


(** * The claims of the specification *)

(** C1.  For every input file whose successfully parsed time stamps are
    non-decreasing (each one greater than or equal to the previous one),
    [check_log_order] records zero ordering violations, prints, after
    parse-error diagnostics at most, the success message, and the
    process exits with status 0. *)
Theorem ordered_file_succeeds (os : Os.OS) (filename : string) (lines : list string) :
  Os.read_lines os filename = Some lines ->
  nondecreasing (timestamps lines) ->
  errors (scan lines) = 0
  /\ (exists diag,
         stdout (check_log_order os filename) =
         PrintChecking filename :: diag ++ [PrintSuccess]
         /\ Forall (fun o => is_parse_error_report o = true) diag)
  /\ outcome (check_log_order os filename) = SysExit 0
  /\ exit_status (check_log_order os filename) = 0.
Proof.
  intros Hread Hsorted.
  destruct (scan_from_ordered lines scan_init Hsorted) as (diag & Hpr & Hf & He).
  fold (scan lines) in Hpr, He. simpl in Hpr, He.
  rewrite (check_log_order_read os filename lines Hread).
  unfold exit_status, summary. rewrite He. simpl. rewrite Hpr.
  repeat split. exists diag. now split.
Qed.

(** The file [ordered.log]: a repeated time stamp and a line without
    time stamp, status 0. *)
Lemma ordered_file_succeeds_witness :
  Os.read_lines world_example "ordered.log" = Some ordered_lines
  /\ nondecreasing (timestamps ordered_lines)
  /\ errors (scan ordered_lines) = 0
  /\ exit_status (check_log_order world_example "ordered.log") = 0.
Proof.
  assert (Hr : Os.read_lines world_example "ordered.log" = Some ordered_lines)
    by reflexivity.
  assert (Hs : nondecreasing (timestamps ordered_lines))
    by (vm_compute; repeat constructor).
  destruct (ordered_file_succeeds world_example "ordered.log" ordered_lines Hr Hs)
    as (He & _ & _ & Hx).
  split; [exact Hr|split; [exact Hs|split; [exact He|exact Hx]]].
Defined.

(** C2.  For every input file the final violation count of
    [check_log_order] is the number of lines whose parsed time stamp is
    strictly earlier than the immediately preceding parsed time stamp,
    one report is printed per such line, and when there is at least one
    the failure summary is printed and the process exits with status 1;
    the three-line example of the specification yields exactly one
    violation, at line 3, from 09:03:10 to 09:03:05, and exit status 1. *)
Theorem violation_count (os : Os.OS) (filename : string) (lines : list string) :
  Os.read_lines os filename = Some lines ->
  errors (scan lines) = Z.of_nat (count_backward (timestamps lines))
  /\ List.length (filter is_backwards_report (stdout (check_log_order os filename)))
     = count_backward (timestamps lines)
  /\ ((1 <= count_backward (timestamps lines))%nat ->
      In (PrintFailed (Z.of_nat (count_backward (timestamps lines))))
         (stdout (check_log_order os filename))
      /\ outcome (check_log_order os filename) = SysExit 1
      /\ exit_status (check_log_order os filename) = 1)
  /\ (lines = example_lines ->
      check_log_order os filename =
      mkRun [PrintChecking filename;
             PrintBackwards 3 (Datetime.mk 2025 1 28 9 3 10)
                              (Datetime.mk 2025 1 28 9 3 5);
             PrintLine "2025-01-28 09:03:05 Thread-3 load test anomaly";
             PrintFailed 1]
            (SysExit 1)
      /\ exit_status (check_log_order os filename) = 1).
Proof.
  intros Hread.
  rewrite (check_log_order_read os filename lines Hread).
  assert (He : errors (scan lines) = Z.of_nat (count_backward (timestamps lines))).
  { unfold scan. rewrite scan_from_errors. reflexivity. }
  assert (Hrep : List.length (filter is_backwards_report (printed (scan lines)))
                 = count_backward (timestamps lines)).
  { unfold scan. rewrite scan_from_reports. reflexivity. }
  split; [exact He|]. split; [|split].
  - unfold summary. destruct (errors (scan lines) =? 0); simpl;
      rewrite filter_app, length_app; simpl; lia.
  - intros Hn. unfold exit_status, summary.
    destruct (errors (scan lines) =? 0) eqn:E.
    + apply Z.eqb_eq in E. lia.
    + simpl. rewrite He. repeat split.
      right. apply in_or_app. right. now left.
  - intros ->. split; reflexivity.
Qed.

(** The example of the specification, as the file [app.log]. *)
Lemma violation_count_witness :
  Os.read_lines world_example "app.log" = Some example_lines
  /\ errors (scan example_lines) = 1
  /\ exit_status (check_log_order world_example "app.log") = 1.
Proof.
  assert (Hr : Os.read_lines world_example "app.log" = Some example_lines)
    by reflexivity.
  destruct (violation_count world_example "app.log" example_lines Hr)
    as (He & _ & _ & Hex).
  destruct (Hex eq_refl) as [_ Hx].
  split; [exact Hr|split; [exact He|exact Hx]].
Defined.

(** C3.  For every line that does not begin, at its very first
    character, with a string of the shape [YYYY-MM-DD HH:MM:SS],
    processing the line leaves the violation count and the last-seen
    baseline unchanged (only the line counter advances, nothing is
    printed); a file with such a line ends with the count and the
    baseline of the file without it. *)
Theorem line_without_timestamp_is_skipped (st : ScanState) (line : string) :
  ~ begins_with_timestamp line ->
  errors (loop_body st line) = errors st
  /\ last_dt (loop_body st line) = last_dt st
  /\ printed (loop_body st line) = printed st
  /\ line_num (loop_body st line) = line_num st + 1
  /\ forall pre post,
      errors (scan (pre ++ line :: post)) = errors (scan (pre ++ post))
      /\ last_dt (scan (pre ++ line :: post)) = last_dt (scan (pre ++ post)).
Proof.
  intros H. apply timestamp_match_None in H.
  rewrite loop_body_step, (step_no_match st line H). cbn.
  repeat split.
  - unfold scan. rewrite !scan_from_app, scan_from_cons, loop_body_step.
    rewrite (step_no_match _ line H).
    now apply scan_from_errors_ext.
  - unfold scan. rewrite !scan_from_app, scan_from_cons, loop_body_step.
    rewrite (step_no_match _ line H).
    generalize (scan_from scan_init pre). intros s.
    assert (G : forall lines a b, last_dt a = last_dt b ->
                  last_dt (scan_from a lines) = last_dt (scan_from b lines)).
    { induction lines as [|x lines IH]; intros a b Hab; [exact Hab|].
      rewrite !scan_from_cons. apply IH. rewrite !loop_body_step.
      unfold timestamp_step. cbn [last_dt].
      destruct (timestamp_match x) as [s'|]; [|exact Hab].
      destruct (Datetime.strptime s') as [e|d]; [exact Hab|reflexivity]. }
    now apply G.
Qed.

(** A time stamp after one blank is no leading time stamp. *)
Lemma line_without_timestamp_is_skipped_witness :
  ~ begins_with_timestamp " 2025-01-28 09:03:08 indented"
  /\ errors (loop_body scan_init " 2025-01-28 09:03:08 indented") = 0
  /\ last_dt (loop_body scan_init " 2025-01-28 09:03:08 indented") = None.
Proof.
  assert (H : ~ begins_with_timestamp " 2025-01-28 09:03:08 indented")
    by (apply timestamp_match_None; reflexivity).
  destruct (line_without_timestamp_is_skipped scan_init _ H) as (He & Hl & _).
  split; [exact H|split; [exact He|exact Hl]].
Defined.

(** C4.  For every line whose leading text has the shape of a time
    stamp but does not parse into a valid date and time (month 13, for
    example), [check_log_order] prints a parse-error diagnostic with the
    number of the line, leaves the baseline and the violation count
    unchanged and continues the scan: the lines after it are processed,
    the run ends with the summary and [sys.exit], and the count is that
    of the file without the line. *)
Theorem parse_error_is_skipped
  (st : ScanState) (line ts tail : string) (e : ValueError) :
  line = String.append ts tail ->
  has_shape timestamp_shape ts = true ->
  Datetime.strptime ts = inl e ->
  printed (loop_body st line) = printed st ++ [PrintParseError (line_num st + 1) e]
  /\ last_dt (loop_body st line) = last_dt st
  /\ errors (loop_body st line) = errors st
  /\ (forall post, scan_from st (line :: post) = scan_from (loop_body st line) post)
  /\ (forall os filename pre post,
        Os.read_lines os filename = Some (pre ++ line :: post) ->
        In (PrintParseError (Z.of_nat (List.length pre) + 1) e)
           (stdout (check_log_order os filename))
        /\ (outcome (check_log_order os filename) = SysExit 0
            \/ outcome (check_log_order os filename) = SysExit 1)
        /\ errors (scan (pre ++ line :: post)) = errors (scan (pre ++ post)))
  /\ Datetime.strptime "2025-13-28 09:03:09"
     = inl (Datetime.NoFormatMatch "2025-13-28 09:03:09").
Proof.
  intros Hline Hshape Hparse.
  assert (Hm : timestamp_match line = Some ts)
    by (apply timestamp_match_Some; now exists tail).
  assert (Hstep : forall s, timestamp_step s line =
            mkScan (last_dt s) (line_num s + 1) (errors s)
                   (printed s ++ [PrintParseError (line_num s + 1) e]))
    by (intros s; now apply step_parse_error with (dt_str := ts)).
  rewrite loop_body_step, Hstep. cbn [printed last_dt errors].
  split; [reflexivity|]. split; [reflexivity|]. split; [reflexivity|].
  split; [intros post; now rewrite scan_from_cons, loop_body_step, Hstep|].
  split; [|reflexivity].
  intros os filename pre post H.
  rewrite (check_log_order_read os filename _ H).
  split; [|split].
  - assert (Hin : In (PrintParseError (Z.of_nat (List.length pre) + 1) e)
                     (printed (scan (pre ++ line :: post)))).
    { unfold scan. rewrite scan_from_app, scan_from_cons, loop_body_step, Hstep.
      rewrite scan_from_line_num. cbn [line_num scan_init].
      match goal with
      | |- context [scan_from ?s post] =>
          destruct (scan_from_printed post s) as (d & Hd); rewrite Hd
      end.
      cbn [printed]. apply in_or_app. left. apply in_or_app. right. now left. }
    unfold summary. destruct (errors (scan (pre ++ line :: post)) =? 0);
      simpl; right; apply in_or_app; now left.
  - simpl. apply summary_outcome.
  - unfold scan. rewrite !scan_from_app, scan_from_cons, loop_body_step, Hstep.
    now apply scan_from_errors_ext.
Qed.

(** Month 13 on the second line of [month13.log]. *)
Lemma parse_error_is_skipped_witness :
  ln "2025-13-28 09:03:09 Thread-2 load test continue"
  = String.append "2025-13-28 09:03:09" (ln " Thread-2 load test continue")
  /\ has_shape timestamp_shape "2025-13-28 09:03:09" = true
  /\ Datetime.strptime "2025-13-28 09:03:09"
     = inl (Datetime.NoFormatMatch "2025-13-28 09:03:09")
  /\ errors (loop_body scan_init (ln "2025-13-28 09:03:09 Thread-2 load test continue")) = 0
  /\ In (PrintParseError 2 (Datetime.NoFormatMatch "2025-13-28 09:03:09"))
        (stdout (check_log_order world_example "month13.log")).
Proof.
  assert (H1 : ln "2025-13-28 09:03:09 Thread-2 load test continue"
               = String.append "2025-13-28 09:03:09" (ln " Thread-2 load test continue"))
    by reflexivity.
  assert (H2 : has_shape timestamp_shape "2025-13-28 09:03:09" = true)
    by reflexivity.
  assert (H3 : Datetime.strptime "2025-13-28 09:03:09"
               = inl (Datetime.NoFormatMatch "2025-13-28 09:03:09"))
    by reflexivity.
  destruct (parse_error_is_skipped scan_init _ _ _ _ H1 H2 H3)
    as (_ & _ & He & _ & Hfile & _).
  destruct (Hfile world_example "month13.log"
              [ln "2025-01-28 09:03:08 Thread-1 load test start"]
              [ln "2025-01-28 09:03:07 Thread-3 load test anomaly"] eq_refl)
    as (Hin & _).
  split; [exact H1|split; [exact H2|split; [exact H3|split; [exact He|exact Hin]]]].
Defined.

(** C5.  For every line whose leading time stamp parses, the last-seen
    baseline becomes that time stamp whether or not the line was an
    ordering violation: after an out-of-order line the next time stamp
    is compared with the out-of-order one, there is no rollback. *)
Theorem baseline_always_updated
  (st : ScanState) (line ts tail : string) (dt : datetime) :
  line = String.append ts tail ->
  has_shape timestamp_shape ts = true ->
  Datetime.strptime ts = inr dt ->
  last_dt (loop_body st line) = Some dt
  /\ (forall l, last_dt st = Some l -> Datetime.ltb dt l = true ->
        errors (loop_body st line) = errors st + 1
        /\ last_dt (loop_body st line) = Some dt)
  /\ (forall line' dt',
        parsed_timestamp line' = Some dt' ->
        errors (loop_body (loop_body st line) line')
        = errors (loop_body st line) + (if Datetime.ltb dt' dt then 1 else 0))
  /\ errors (scan no_rollback_lines) = 1.
Proof.
  intros Hline Hshape Hparse.
  assert (Hm : timestamp_match line = Some ts)
    by (apply timestamp_match_Some; now exists tail).
  assert (Hp : parsed_timestamp line = Some dt)
    by (unfold parsed_timestamp; now rewrite Hm, Hparse).
  assert (Hlast : forall s, last_dt (timestamp_step s line) = Some dt).
  { intros s. step_cases s line; try reflexivity; try congruence.
    all: cbn [last_dt]; congruence. }
  rewrite !loop_body_step. split; [apply Hlast|]. split; [|split].
  - intros l Hl Hlt. rewrite (step_backwards st line dt l Hp Hl Hlt).
    split; reflexivity.
  - intros line' dt' Hp'. rewrite !loop_body_step.
    destruct (Datetime.ltb dt' dt) eqn:Hlt.
    + rewrite (step_backwards _ line' dt' dt Hp' (Hlast st) Hlt). reflexivity.
    + rewrite (step_in_order _ line' dt' dt Hp' (Hlast st) Hlt). cbn [errors]. lia.
  - reflexivity.
Qed.

(** 09:03:05 after 09:03:10 is a violation and the new baseline. *)
Lemma baseline_always_updated_witness :
  ln "2025-01-28 09:03:05 b" = String.append "2025-01-28 09:03:05" (ln " b")
  /\ has_shape timestamp_shape "2025-01-28 09:03:05" = true
  /\ Datetime.strptime "2025-01-28 09:03:05" = inr (Datetime.mk 2025 1 28 9 3 5)
  /\ last_dt (loop_body (scan [ln "2025-01-28 09:03:10 a"]) (ln "2025-01-28 09:03:05 b"))
     = Some (Datetime.mk 2025 1 28 9 3 5).
Proof.
  assert (H1 : ln "2025-01-28 09:03:05 b"
               = String.append "2025-01-28 09:03:05" (ln " b")) by reflexivity.
  assert (H2 : has_shape timestamp_shape "2025-01-28 09:03:05" = true)
    by reflexivity.
  assert (H3 : Datetime.strptime "2025-01-28 09:03:05"
               = inr (Datetime.mk 2025 1 28 9 3 5)) by reflexivity.
  destruct (baseline_always_updated (scan [ln "2025-01-28 09:03:10 a"]) _ _ _ _ H1 H2 H3)
    as (Hl & _).
  split; [exact H1|split; [exact H2|split; [exact H3|exact Hl]]].
Defined.

(** ** The main block *)

Lemma after_nil (r : Run) : after [] r = r.
Proof. destruct r. reflexivity. Qed.

Lemma main_with_argument (os : Os.OS) (argv0 P : string) (rest : list string) :
  main os (argv0 :: P :: rest) =
  match resolve_target os P with
  | inr (o, Some target) => after o (check_log_order os target)
  | inr (o, None) => mkRun o (SysExit 1)
  | inl e => mkRun [] (Uncaught e)
  end.
Proof.
  unfold main.
  assert (H : (Z.of_nat (List.length (argv0 :: P :: rest)) <? 2) = false).
  { apply Z.ltb_ge. cbn [List.length]. lia. }
  rewrite H. reflexivity.
Qed.

Lemma main_without_argument (os : Os.OS) (argv : list string) :
  (List.length argv < 2)%nat ->
  main os argv = mkRun [PrintUsage] (SysExit 1).
Proof.
  intros H. unfold main.
  assert (E : (Z.of_nat (List.length argv) <? 2) = true) by (apply Z.ltb_lt; lia).
  now rewrite E.
Qed.

Lemma resolve_existing (os : Os.OS) (P : string) :
  Os.path_exists os P = true -> resolve_target os P = inr ([], Some P).
Proof.
  intros H. unfold resolve_target. now rewrite H.
Qed.

Lemma resolve_missing (os : Os.OS) (P : string) :
  Os.path_exists os P = false ->
  resolve_target os P =
  match Os.glob os (String.append P ".*") with
  | c :: cs =>
      match Os.max_by_key (getctime os) c cs with
      | inr target => inr ([PrintTargeting target], Some target)
      | inl e => inl e
      end
  | [] => inr ([PrintNotFound P], None)
  end.
Proof.
  intros H. unfold resolve_target. now rewrite H.
Qed.

(** C6, as the code has it.  For every path argument [P] that does not
    exist, if at least one path matches the pattern [P.*] and the
    creation time of every matching path can be read
    ([os.path.getctime] raises for none of them), the resolver selects
    as target a candidate whose creation time is the most recent, prints
    which file is targeted and goes on to scan that file. *)
Theorem fallback_selects_latest
  (os : Os.OS) (argv0 P : string) (rest : list string) :
  Os.path_exists os P = false ->
  Os.glob os (String.append P ".*") <> [] ->
  (forall c, In c (Os.glob os (String.append P ".*")) ->
     Os.path_getctime os c <> None) ->
  exists target qt,
    In target (Os.glob os (String.append P ".*"))
    /\ Os.path_getctime os target = Some qt
    /\ (forall c q, In c (Os.glob os (String.append P ".*")) ->
          Os.path_getctime os c = Some q -> (q <= qt)%Q)
    /\ resolve_target os P = inr ([PrintTargeting target], Some target)
    /\ main os (argv0 :: P :: rest)
       = after [PrintTargeting target] (check_log_order os target)
    /\ (forall lines,
          Os.read_lines os target = Some lines ->
          main os (argv0 :: P :: rest)
          = after [PrintTargeting target; PrintChecking target]
                  (summary (scan lines))).
Proof.
  intros Hex Hglob Hstat.
  assert (Hres := resolve_missing os P Hex).
  rewrite main_with_argument.
  destruct (Os.glob os (String.append P ".*")) as [|c cs]; [congruence|].
  destruct (max_by_key_spec (getctime os) cs c) as (t & qt & Ht & Hin & Hk & Hmax).
  { intros y Hy. specialize (Hstat y Hy). unfold getctime.
    destruct (Os.path_getctime os y) as [q|]; [now exists q|congruence]. }
  rewrite Ht in Hres. exists t, qt. rewrite Hres.
  split; [exact Hin|]. split; [now apply getctime_inr|].
  split; [intros y q Hy Hq; apply (Hmax y q Hy); now apply getctime_inr|].
  split; [reflexivity|]. split; [reflexivity|].
  intros lines Hread. now rewrite (check_log_order_read _ _ _ Hread).
Qed.

(** The rotated logs [stress_test_log.1700000000] and
    [stress_test_log.1700000500]: the second is the target. *)
Lemma fallback_selects_latest_witness :
  Os.path_exists world_rotated "stress_test_log" = false
  /\ Os.glob world_rotated "stress_test_log.*"
     = ["stress_test_log.1700000000"; "stress_test_log.1700000500"]
  /\ Os.path_getctime world_rotated "stress_test_log.1700000000" = Some 1700000000%Q
  /\ Os.path_getctime world_rotated "stress_test_log.1700000500" = Some 1700000500%Q
  /\ main world_rotated ["verify_logs.py"; "stress_test_log"]
     = after [PrintTargeting "stress_test_log.1700000500"]
             (check_log_order world_rotated "stress_test_log.1700000500").
Proof.
  assert (H1 : Os.path_exists world_rotated "stress_test_log" = false)
    by reflexivity.
  assert (H2 : Os.glob world_rotated (String.append "stress_test_log" ".*") <> [])
    by discriminate.
  assert (H3 : forall c,
             In c (Os.glob world_rotated (String.append "stress_test_log" ".*")) ->
             Os.path_getctime world_rotated c <> None)
    by (intros c [<-|[<-|[]]]; discriminate).
  destruct (fallback_selects_latest world_rotated "verify_logs.py"
              "stress_test_log" [] H1 H2 H3)
    as (target & qt & _ & _ & _ & Hres & Hmain & _).
  assert (Ht : target = "stress_test_log.1700000500").
  { assert (Hc : resolve_target world_rotated "stress_test_log"
                 = inr ([PrintTargeting "stress_test_log.1700000500"],
                        Some "stress_test_log.1700000500")) by reflexivity.
    rewrite Hc in Hres. now injection Hres as <-. }
  rewrite Ht in Hmain.
  split; [exact H1|]. split; [reflexivity|]. split; [reflexivity|].
  split; [reflexivity|exact Hmain].
Defined.

(** C6, as the specification has it, fails: the path [stress_test_log]
    does not exist and two paths match [stress_test_log.*], the second
    a regular file; the first is a link to nothing, [os.path.getctime]
    raises for it inside [max] at line 61 and the exception escapes:
    no target is selected, nothing is printed, no file is scanned. *)
Lemma fallback_dangling_link_counterexample :
  Os.path_exists world_dangling "stress_test_log" = false
  /\ Os.glob world_dangling "stress_test_log.*"
     = ["stress_test_log.1700000000"; "stress_test_log.1700000500"]
  /\ Os.path_isfile world_dangling "stress_test_log.1700000500" = true
  /\ main world_dangling ["verify_logs.py"; "stress_test_log"]
     = mkRun [] (Uncaught (OSError "stress_test_log.1700000000"))
  /\ ~ (exists target,
          In target (Os.glob world_dangling "stress_test_log.*")
          /\ main world_dangling ["verify_logs.py"; "stress_test_log"]
             = after [PrintTargeting target] (check_log_order world_dangling target)).
Proof.
  split; [reflexivity|]. split; [reflexivity|]. split; [reflexivity|].
  split; [reflexivity|].
  intros (target & _ & H).
  assert (E : stdout (main world_dangling ["verify_logs.py"; "stress_test_log"]) = [])
    by reflexivity.
  rewrite H in E. discriminate E.
Qed.

(** C7.  Without a file argument the program prints the usage message
    and exits with status 1; with a path that does not exist and that no
    candidate of the prefix search matches, it prints the not-found
    message with the requested path and exits with status 1. *)
Theorem usage_and_not_found (os : Os.OS) :
  (forall argv,
      (List.length argv < 2)%nat ->
      main os argv = mkRun [PrintUsage] (SysExit 1)
      /\ exit_status (main os argv) = 1)
  /\ (forall argv0 P rest,
        Os.path_exists os P = false ->
        Os.glob os (String.append P ".*") = [] ->
        main os (argv0 :: P :: rest) = mkRun [PrintNotFound P] (SysExit 1)
        /\ exit_status (main os (argv0 :: P :: rest)) = 1).
Proof.
  split.
  - intros argv H. rewrite (main_without_argument os argv H). now split.
  - intros argv0 P rest Hex Hglob.
    rewrite main_with_argument, (resolve_missing os P Hex), Hglob. now split.
Qed.

(** The script name alone, and a path that nothing matches. *)
Lemma usage_and_not_found_witness :
  (List.length ["verify_logs.py"] < 2)%nat
  /\ main world_example ["verify_logs.py"] = mkRun [PrintUsage] (SysExit 1)
  /\ Os.path_exists world_example "missing.log" = false
  /\ Os.glob world_example "missing.log.*" = []
  /\ main world_example ["verify_logs.py"; "missing.log"]
     = mkRun [PrintNotFound "missing.log"] (SysExit 1).
Proof.
  assert (H1 : (List.length ["verify_logs.py"] < 2)%nat) by (simpl; lia).
  assert (H2 : Os.path_exists world_example "missing.log" = false) by reflexivity.
  assert (H3 : Os.glob world_example (String.append "missing.log" ".*") = [])
    by reflexivity.
  destruct (usage_and_not_found world_example) as [Hu Hn].
  destruct (Hu ["verify_logs.py"] H1) as [Hu' _].
  destruct (Hn "verify_logs.py" "missing.log" [] H2 H3) as [Hn' _].
  split; [exact H1|split; [exact Hu'|split; [exact H2|split; [exact H3|exact Hn']]]].
Defined.

(** C8, as the code has it.  File resolution returns the given path
    unchanged, and prints nothing, exactly when [os.path.exists] holds
    for it, whatever kind of file it is (a directory too); only a path
    that does not exist falls through to the prefix search. *)
Theorem resolve_unchanged_iff_exists (os : Os.OS) (P : string) :
  (resolve_target os P = inr ([], Some P) <-> Os.path_exists os P = true)
  /\ (Os.path_exists os P = false ->
      resolve_target os P =
      match Os.glob os (String.append P ".*") with
      | c :: cs =>
          match Os.max_by_key (getctime os) c cs with
          | inr target => inr ([PrintTargeting target], Some target)
          | inl e => inl e
          end
      | [] => inr ([PrintNotFound P], None)
      end)
  /\ (Os.path_exists os P = true ->
      forall argv0 rest, main os (argv0 :: P :: rest) = check_log_order os P).
Proof.
  split; [split|split].
  - intros H. destruct (Os.path_exists os P) eqn:E; [reflexivity|].
    rewrite (resolve_missing os P E) in H.
    destruct (Os.glob os (String.append P ".*")) as [|c cs]; [discriminate|].
    destruct (Os.max_by_key (getctime os) c cs); discriminate.
  - apply resolve_existing.
  - apply resolve_missing.
  - intros H argv0 rest.
    rewrite main_with_argument, (resolve_existing os P H).
    apply after_nil.
Qed.

(** The directory [logs] is kept as the target; [nothing] is not found. *)
Lemma resolve_unchanged_iff_exists_witness :
  Os.path_exists world_directory "logs" = true
  /\ Os.path_exists world_directory "nothing" = false
  /\ main world_directory ["verify_logs.py"; "logs"]
     = check_log_order world_directory "logs"
  /\ resolve_target world_directory "nothing" = inr ([PrintNotFound "nothing"], None).
Proof.
  assert (H1 : Os.path_exists world_directory "logs" = true) by reflexivity.
  assert (H2 : Os.path_exists world_directory "nothing" = false) by reflexivity.
  destruct (resolve_unchanged_iff_exists world_directory "logs") as (_ & _ & Hm).
  destruct (resolve_unchanged_iff_exists world_directory "nothing") as (_ & Hr & _).
  split; [exact H1|split; [exact H2|split; [exact (Hm H1 _ _)|exact (Hr H2)]]].
Defined.

(** C8, as the specification has it, fails: the directory [logs]
    exists and is not a regular file, a candidate [logs.1700000500] of
    the prefix search exists, and resolution returns [logs] unchanged
    without a prefix search. *)
Lemma resolve_regular_file_counterexample :
  Os.path_exists world_directory "logs" = true
  /\ Os.path_isfile world_directory "logs" = false
  /\ Os.glob world_directory "logs.*" = ["logs.1700000500"]
  /\ resolve_target world_directory "logs" = inr ([], Some "logs")
  /\ ~ (resolve_target world_directory "logs" = inr ([], Some "logs")
        <-> Os.path_isfile world_directory "logs" = true).
Proof.
  repeat split; try reflexivity.
  intros [H _]. specialize (H eq_refl). discriminate.
Qed.

(** ** The content heuristic *)

Lemma scan_without_heuristic_eq (lines : list string) :
  scan lines = scan_without_heuristic lines.
Proof.
  unfold scan, scan_from, scan_without_heuristic.
  generalize scan_init.
  induction lines as [|line lines IH]; intros st; [reflexivity|].
  simpl. rewrite loop_body_step. apply IH.
Qed.

(** Two lines with the same leading time stamp move two states that
    agree up to the echoed text into two such states. *)
Lemma step_up_to_text (a b : ScanState) (l1 l2 : string) :
  timestamp_match l1 = timestamp_match l2 ->
  last_dt a = last_dt b ->
  line_num a = line_num b ->
  errors a = errors b ->
  map without_line_text (printed a) = map without_line_text (printed b) ->
  last_dt (timestamp_step a l1) = last_dt (timestamp_step b l2)
  /\ line_num (timestamp_step a l1) = line_num (timestamp_step b l2)
  /\ errors (timestamp_step a l1) = errors (timestamp_step b l2)
  /\ map without_line_text (printed (timestamp_step a l1))
     = map without_line_text (printed (timestamp_step b l2)).
Proof.
  intros Hm Hl Hn He Hp. unfold timestamp_step. rewrite Hm.
  destruct a as [la na ea pa], b as [lb nb eb pb]. simpl in *. subst.
  destruct (timestamp_match l2) as [s|]; [|now repeat split].
  destruct (Datetime.strptime s) as [e|d]; simpl.
  - rewrite !map_app, Hp. now repeat split.
  - destruct lb as [l|]; [|now repeat split].
    destruct (Datetime.ltb d l); simpl; [|now repeat split].
    rewrite !map_app, Hp. now repeat split.
Qed.

Lemma scan_up_to_text (lines1 lines2 : list string) :
  Forall2 (fun l1 l2 => timestamp_match l1 = timestamp_match l2) lines1 lines2 ->
  forall a b,
    last_dt a = last_dt b ->
    line_num a = line_num b ->
    errors a = errors b ->
    map without_line_text (printed a) = map without_line_text (printed b) ->
    errors (scan_from a lines1) = errors (scan_from b lines2)
    /\ map without_line_text (printed (scan_from a lines1))
       = map without_line_text (printed (scan_from b lines2)).
Proof.
  induction 1 as [|l1 l2 lines1 lines2 Hm _ IH]; intros a b Hl Hn He Hp.
  - now split.
  - rewrite !scan_from_cons, !loop_body_step.
    destruct (step_up_to_text a b l1 l2 Hm Hl Hn He Hp) as (Hl' & Hn' & He' & Hp').
    now apply IH.
Qed.

(** C9.  The content heuristic (the test for the substrings
    [load test] and [Thread]) has no effect: the loop body, the scan and
    the whole program are equal to the program without that branch; and
    two files whose lines carry, line by line, the same leading time
    stamp give the same violation count, the same exit and the same
    printed events up to the echoed text of the lines, whichever of them
    contain those substrings. *)
Theorem content_heuristic_has_no_effect :
  (forall st line, loop_body st line = timestamp_step st line)
  /\ (forall os filename,
        check_log_order os filename = check_log_order_without_heuristic os filename)
  /\ (forall os argv, main os argv = main_without_heuristic os argv)
  /\ (forall lines1 lines2,
        Forall2 (fun l1 l2 => timestamp_match l1 = timestamp_match l2)
                lines1 lines2 ->
        errors (scan lines1) = errors (scan lines2)
        /\ map without_line_text (stdout (summary (scan lines1)))
           = map without_line_text (stdout (summary (scan lines2)))
        /\ outcome (summary (scan lines1)) = outcome (summary (scan lines2))).
Proof.
  assert (Hc : forall os filename,
             check_log_order os filename
             = check_log_order_without_heuristic os filename).
  { intros os filename. unfold check_log_order, check_log_order_without_heuristic.
    destruct (Os.open_read os filename) as [[lines [e|]]|]; [| |reflexivity];
      now rewrite scan_without_heuristic_eq. }
  split; [exact loop_body_step|]. split; [exact Hc|]. split.
  - intros os argv. unfold main, main_without_heuristic.
    destruct (Z.of_nat (List.length argv) <? 2); [reflexivity|].
    destruct (resolve_target os (nth 1 argv "")) as [e|[o [target|]]];
      [reflexivity|now rewrite Hc|reflexivity].
  - intros lines1 lines2 H.
    destruct (scan_up_to_text lines1 lines2 H scan_init scan_init
                eq_refl eq_refl eq_refl eq_refl) as [He Hp].
    fold (scan lines1) in He, Hp. fold (scan lines2) in He, Hp.
    split; [exact He|]. unfold summary. rewrite He.
    destruct (errors (scan lines2) =? 0); simpl; rewrite !map_app, Hp; now split.
Qed.

(** The example of the specification with and without the substrings. *)
Lemma content_heuristic_has_no_effect_witness :
  Forall2 (fun l1 l2 => timestamp_match l1 = timestamp_match l2)
          example_lines
          [ln "2025-01-28 09:03:08 start"; ln "2025-01-28 09:03:10 continue";
           ln "2025-01-28 09:03:05 anomaly"]
  /\ errors (scan example_lines)
     = errors (scan [ln "2025-01-28 09:03:08 start";
                     ln "2025-01-28 09:03:10 continue";
                     ln "2025-01-28 09:03:05 anomaly"]).
Proof.
  assert (H : Forall2 (fun l1 l2 => timestamp_match l1 = timestamp_match l2)
                example_lines
                [ln "2025-01-28 09:03:08 start"; ln "2025-01-28 09:03:10 continue";
                 ln "2025-01-28 09:03:05 anomaly"])
    by (repeat constructor).
  destruct content_heuristic_has_no_effect as (_ & _ & _ & Hh).
  destruct (Hh _ _ H) as [He _].
  split; [exact H|exact He].
Defined.

(** C10.  When at least one positional argument is given, the
    arguments after the first have no effect, and neither has the name
    of the script: the run, its output and its exit status are those of
    the run with the first argument alone. *)
Theorem extra_arguments_ignored
  (os : Os.OS) (argv0 argv0' P : string) (rest rest' : list string) :
  main os (argv0 :: P :: rest) = main os (argv0' :: P :: rest')
  /\ main os (argv0 :: P :: rest) = main os [argv0; P]
  /\ stdout (main os (argv0 :: P :: rest)) = stdout (main os (argv0 :: P :: rest'))
  /\ exit_status (main os (argv0 :: P :: rest))
     = exit_status (main os (argv0 :: P :: rest')).
Proof.
  rewrite !main_with_argument. repeat split.
Qed.

(** * Further properties of the program *)

(** ** The order of date-times is a total order *)

Lemma ltb_iff (a b : datetime) :
  Datetime.ltb a b = true <->
  (Datetime.year a < Datetime.year b
   \/ (Datetime.year a = Datetime.year b
       /\ (Datetime.month a < Datetime.month b
           \/ (Datetime.month a = Datetime.month b
               /\ (Datetime.day a < Datetime.day b
                   \/ (Datetime.day a = Datetime.day b
                       /\ (Datetime.hour a < Datetime.hour b
                           \/ (Datetime.hour a = Datetime.hour b
                               /\ (Datetime.minute a < Datetime.minute b
                                   \/ (Datetime.minute a = Datetime.minute b
                                       /\ Datetime.second a < Datetime.second b)))))))))).
Proof.
  unfold Datetime.ltb, Datetime.compare.
  repeat match goal with
         | |- context [?x ?= ?y] => destruct (Z.compare_spec x y)
         end;
    split; intros HH; first [reflexivity | discriminate | lia | exfalso; lia].
Qed.

Lemma leb_iff (a b : datetime) :
  Datetime.leb a b = true <-> Datetime.ltb b a = false.
Proof.
  rewrite ltb_negb_leb. destruct (Datetime.leb a b); simpl; split; congruence.
Qed.

Lemma leb_refl (a : datetime) : Datetime.leb a a = true.
Proof.
  apply leb_iff. destruct (Datetime.ltb a a) eqn:E; [|reflexivity].
  apply ltb_iff in E. lia.
Qed.

Lemma leb_trans (a b c : datetime) :
  Datetime.leb a b = true -> Datetime.leb b c = true -> Datetime.leb a c = true.
Proof.
  rewrite !leb_iff. intros Hab Hbc.
  destruct (Datetime.ltb c a) eqn:Hca; [|reflexivity].
  apply ltb_iff in Hca.
  assert (Nab : ~ Datetime.ltb b a = true) by congruence.
  assert (Nbc : ~ Datetime.ltb c b = true) by congruence.
  rewrite ltb_iff in Nab, Nbc. exfalso. lia.
Qed.

(** ** Chronological order and the counter *)

Lemma count_backward_zero_iff (ts : list datetime) :
  count_backward ts = 0%nat <-> nondecreasing ts.
Proof.
  unfold nondecreasing.
  induction ts as [|a [|b ts] IH].
  - split; [constructor|reflexivity].
  - split; [constructor|reflexivity].
  - change (count_backward (a :: b :: ts))
      with ((if Datetime.ltb b a then 1 else 0) + count_backward (b :: ts))%nat.
    split.
    + intros H. destruct (Datetime.ltb b a) eqn:E; [lia|].
      constructor; [apply IH; lia|now apply leb_iff].
    + intros H. inversion H as [| |x y l Hs Hab]; subst.
      apply leb_iff in Hab. rewrite Hab. apply IH in Hs. lia.
Qed.

Lemma errors_scan (lines : list string) :
  errors (scan lines) = Z.of_nat (count_backward (timestamps lines)).
Proof.
  unfold scan. rewrite scan_from_errors. reflexivity.
Qed.

Lemma summary_exit (st : ScanState) :
  (outcome (summary st) = SysExit 0 <-> errors st = 0)
  /\ (outcome (summary st) = SysExit 1 <-> errors st <> 0).
Proof.
  unfold summary. destruct (Z.eqb_spec (errors st) 0) as [E|E]; simpl;
    repeat split; intros; try congruence.
Qed.

Lemma summary_zero_iff (lines : list string) :
  outcome (summary (scan lines)) = SysExit 0 <-> nondecreasing (timestamps lines).
Proof.
  rewrite (proj1 (summary_exit _)), errors_scan, <- count_backward_zero_iff. lia.
Qed.

Lemma exit_status_after (o : list Output) (r : Run) :
  exit_status (after o r) = exit_status r.
Proof. reflexivity. Qed.

Lemma exit_status_summary (lines : list string) :
  exit_status (summary (scan lines)) = 0 <-> nondecreasing (timestamps lines).
Proof.
  rewrite <- summary_zero_iff. unfold exit_status.
  destruct (summary_outcome (scan lines)) as [E|E]; rewrite E;
    split; congruence.
Qed.

(** X1.  For a file that can be read, the exit status is 0 exactly when
    the parsed time stamps of the file are non-decreasing, and it is 1
    otherwise. *)
Theorem exit_status_decides_order
  (os : Os.OS) (filename : string) (lines : list string) :
  Os.read_lines os filename = Some lines ->
  (exit_status (check_log_order os filename) = 0
   <-> nondecreasing (timestamps lines))
  /\ (exit_status (check_log_order os filename) = 1
      <-> ~ nondecreasing (timestamps lines)).
Proof.
  intros Hread. rewrite (check_log_order_read _ _ _ Hread), exit_status_after.
  split; [apply exit_status_summary|].
  rewrite <- exit_status_summary. unfold exit_status.
  destruct (summary_outcome (scan lines)) as [E|E]; rewrite E;
    split; congruence.
Qed.

(** The example of the specification is not in order: status 1. *)
Lemma exit_status_decides_order_witness :
  Os.read_lines world_example "app.log" = Some example_lines
  /\ (exit_status (check_log_order world_example "app.log") = 1
      <-> ~ nondecreasing (timestamps example_lines)).
Proof.
  assert (Hr : Os.read_lines world_example "app.log" = Some example_lines)
    by reflexivity.
  split; [exact Hr|].
  exact (proj2 (exit_status_decides_order world_example "app.log" example_lines Hr)).
Defined.

(** Adjacent order is global order: the relation is transitive. *)
Lemma nondecreasing_global (ts : list datetime) :
  nondecreasing ts <->
  forall i j a b,
    (i < j)%nat -> nth_error ts i = Some a -> nth_error ts j = Some b ->
    Datetime.leb a b = true.
Proof.
  unfold nondecreasing. split.
  - intros H. apply Sorted_LocallySorted_iff in H.
    apply Sorted_StronglySorted in H;
      [|intros x y z; apply leb_trans].
    induction H as [|x l Hs IH Hall]; intros i j a b Hij Hi Hj.
    + destruct i; discriminate.
    + destruct j as [|j]; [lia|]. simpl in Hj. destruct i as [|i].
      * simpl in Hi. injection Hi as <-.
        rewrite Forall_forall in Hall. apply Hall.
        now apply nth_error_In with j.
      * simpl in Hi. apply (IH i j); [lia|assumption|assumption].
  - induction ts as [|x [|y ts] IH]; intros H; try constructor.
    + apply IH. intros i j a b Hij Hi Hj.
      apply (H (S i) (S j)); [lia|exact Hi|exact Hj].
    + apply (H 0%nat 1%nat); [lia|reflexivity|reflexivity].
Qed.

(** X2.  A file that passes is globally in order: the exit status is 0
    exactly when every parsed time stamp is greater than or equal to
    every parsed time stamp of an earlier line, not only to the one just
    before it. *)
Theorem exit_zero_iff_globally_ordered
  (os : Os.OS) (filename : string) (lines : list string) :
  Os.read_lines os filename = Some lines ->
  (exit_status (check_log_order os filename) = 0
   <-> forall i j a b,
         (i < j)%nat ->
         nth_error (timestamps lines) i = Some a ->
         nth_error (timestamps lines) j = Some b ->
         Datetime.leb a b = true).
Proof.
  intros Hread. rewrite (check_log_order_read _ _ _ Hread), exit_status_after.
  rewrite exit_status_summary. apply nondecreasing_global.
Qed.

(** In [ordered.log] the last time stamp is not before the first. *)
Lemma exit_zero_iff_globally_ordered_witness :
  Os.read_lines world_example "ordered.log" = Some ordered_lines
  /\ Datetime.leb (Datetime.mk 2025 1 28 9 3 8) (Datetime.mk 2025 1 29 0 0 0) = true.
Proof.
  assert (Hr : Os.read_lines world_example "ordered.log" = Some ordered_lines)
    by reflexivity.
  split; [exact Hr|].
  apply (proj1 (exit_zero_iff_globally_ordered world_example "ordered.log"
                  ordered_lines Hr) eq_refl 0%nat 2%nat); [lia|reflexivity|reflexivity].
Defined.

(** ** What the reports say *)

Lemma timestamps_app (l1 l2 : list string) :
  timestamps (l1 ++ l2) = timestamps l1 ++ timestamps l2.
Proof.
  induction l1 as [|x l1 IH]; [reflexivity|].
  simpl. destruct (parsed_timestamp x); simpl; now rewrite IH.
Qed.

Lemma last_cons {A : Type} (l : list A) (a d : A) :
  List.last (a :: l) d = List.last l a.
Proof.
  revert a d. induction l as [|b l IH]; intros a d; [reflexivity|].
  change (List.last (a :: b :: l) d) with (List.last (b :: l) d).
  now rewrite (IH b d), (IH b a).
Qed.

(** The baseline after a scan is the last parsed time stamp. *)
Lemma last_dt_scan_from (lines : list string) :
  forall st,
    last_dt (scan_from st lines)
    = List.last (map Some (timestamps lines)) (last_dt st).
Proof.
  induction lines as [|line lines IH]; intros st; [reflexivity|].
  rewrite scan_from_cons, IH, loop_body_step, timestamps_cons.
  step_cases st line; cbn [last_dt map]; rewrite ?last_cons; reflexivity.
Qed.

Lemma scan_snoc (lines : list string) (line : string) :
  scan (lines ++ [line]) = timestamp_step (scan lines) line.
Proof.
  unfold scan. rewrite scan_from_app. simpl. apply loop_body_step.
Qed.

Lemma line_num_scan (lines : list string) :
  line_num (scan lines) = Z.of_nat (List.length lines).
Proof.
  unfold scan. rewrite scan_from_line_num. reflexivity.
Qed.

(** The baseline is the time stamp of a line that was read. *)
Lemma last_dt_scan_origin (lines : list string) (l : datetime) :
  last_dt (scan lines) = Some l ->
  exists i line,
    nth_error lines i = Some line /\ parsed_timestamp line = Some l.
Proof.
  induction lines as [|x lines IH] using rev_ind; [discriminate|].
  rewrite scan_snoc. intros H.
  assert (Hx : nth_error (lines ++ [x]) (List.length lines) = Some x).
  { rewrite nth_error_app2, Nat.sub_diag; [reflexivity|lia]. }
  assert (Hold : last_dt (scan lines) = Some l ->
                 exists i line, nth_error (lines ++ [x]) i = Some line
                                /\ parsed_timestamp line = Some l).
  { intros H'. destruct (IH H') as (i & line & Hi & Hp).
    exists i, line. split; [|exact Hp].
    rewrite nth_error_app1; [exact Hi|].
    apply nth_error_Some. congruence. }
  revert H. step_cases (scan lines) x; cbn [last_dt]; intros H;
    try (injection H as <-; now exists (List.length lines), x);
    try (apply Hold; congruence).
Qed.

(** Every report of the scan is a true backward step, at the number of
    a line that carries the later time stamp. *)
Lemma printed_backwards_genuine (lines : list string) :
  forall k l d,
    In (PrintBackwards k l d) (printed (scan lines)) ->
    Datetime.ltb d l = true
    /\ 2 <= k <= Z.of_nat (List.length lines)
    /\ (exists line,
          nth_error lines (Z.to_nat (k - 1)) = Some line
          /\ parsed_timestamp line = Some d)
    /\ (exists i line',
          (Z.of_nat i < k - 1)
          /\ nth_error lines i = Some line'
          /\ parsed_timestamp line' = Some l).
Proof.
  induction lines as [|x lines IH] using rev_ind; intros k l d Hin; [destruct Hin|].
  assert (Hold : In (PrintBackwards k l d) (printed (scan lines)) ->
                 Datetime.ltb d l = true
                 /\ 2 <= k <= Z.of_nat (List.length (lines ++ [x]))
                 /\ (exists line,
                       nth_error (lines ++ [x]) (Z.to_nat (k - 1)) = Some line
                       /\ parsed_timestamp line = Some d)
                 /\ (exists i line',
                       (Z.of_nat i < k - 1)
                       /\ nth_error (lines ++ [x]) i = Some line'
                       /\ parsed_timestamp line' = Some l)).
  { intros H. destruct (IH k l d H) as (Hlt & Hk & (line & Hn & Hp) & (i & line' & Hi & Hn' & Hp')).
    rewrite length_app. simpl. split; [exact Hlt|]. split; [lia|]. split.
    - exists line. split; [|exact Hp]. rewrite nth_error_app1; [exact Hn|lia].
    - exists i, line'. split; [exact Hi|]. split; [|exact Hp'].
      rewrite nth_error_app1; [exact Hn'|lia]. }
  rewrite scan_snoc in Hin. revert Hin.
  step_cases (scan lines) x; cbn [printed]; intros Hin.
  - (* a report for the last line *)
    apply in_app_or in Hin. destruct Hin as [Hin|[Hin|[]]]; [|discriminate].
    apply in_app_or in Hin. destruct Hin as [Hin|[Hin|[]]]; [now apply Hold|].
    injection Hin as <- <- <-. rewrite line_num_scan, length_app. simpl.
    destruct (last_dt_scan_origin lines l0 Hl) as (i & line' & Hi & Hp').
    assert (i < List.length lines)%nat by (apply nth_error_Some; congruence).
    split; [exact Hlt|]. split; [lia|]. split.
    + exists x. split; [|exact Hp].
      replace (Z.to_nat (Z.of_nat (List.length lines) + 1 - 1))
        with (List.length lines) by lia.
      rewrite nth_error_app2, Nat.sub_diag; [reflexivity|lia].
    + exists i, line'. split; [lia|]. split; [|exact Hp'].
      rewrite nth_error_app1; [exact Hi|lia].
  - now apply Hold.
  - now apply Hold.
  - apply in_app_or in Hin. destruct Hin as [Hin|Hin]; [now apply Hold|].
    rewrite Forall_forall in Hd. apply Hd in Hin. discriminate.
Qed.

Lemma stdout_check_log_order (os : Os.OS) (filename : string) (lines : list string) :
  Os.read_lines os filename = Some lines ->
  exists final,
    stdout (check_log_order os filename)
    = PrintChecking filename :: printed (scan lines) ++ [final]
    /\ (final = PrintSuccess \/ final = PrintFailed (errors (scan lines))).
Proof.
  intros Hread. rewrite (check_log_order_read _ _ _ Hread). unfold summary.
  destruct (errors (scan lines) =? 0); simpl; eexists; split; eauto.
Qed.

(** X3.  When the parsed time stamp of a line is strictly earlier than
    the last time stamp parsed before it, the output has the report
    with the number of that line (counting every line of the file, with
    or without time stamp), the earlier baseline and the new time stamp,
    immediately followed by the text of the line without surrounding
    white space. *)
Theorem violation_is_reported
  (os : Os.OS) (filename : string) (pre post : list string) (line : string)
  (l dt : datetime) :
  Os.read_lines os filename = Some (pre ++ line :: post) ->
  parsed_timestamp line = Some dt ->
  List.last (map Some (timestamps pre)) None = Some l ->
  Datetime.ltb dt l = true ->
  exists before later,
    stdout (check_log_order os filename)
    = PrintChecking filename
        :: before
        ++ PrintBackwards (Z.of_nat (List.length pre) + 1) l dt
        :: PrintLine (PyStr.strip line)
        :: later.
Proof.
  intros Hread Hp Hl Hlt.
  destruct (stdout_check_log_order os filename _ Hread) as (final & -> & _).
  assert (Hbase : last_dt (scan pre) = Some l).
  { unfold scan. rewrite last_dt_scan_from. exact Hl. }
  unfold scan. rewrite scan_from_app, scan_from_cons, loop_body_step.
  fold (scan pre).
  rewrite (step_backwards (scan pre) line dt l Hp Hbase Hlt).
  match goal with
  | |- context [scan_from ?s post] =>
      destruct (scan_from_printed post s) as (d & Hd); rewrite Hd
  end.
  cbn [printed]. rewrite line_num_scan.
  exists (printed (scan pre)), (d ++ [final]).
  rewrite <- !app_assoc. reflexivity.
Qed.

(** The third line of the example of the specification. *)
Lemma violation_is_reported_witness :
  Os.read_lines world_example "app.log"
  = Some ([ln "2025-01-28 09:03:08 Thread-1 load test start";
           ln "2025-01-28 09:03:10 Thread-2 load test continue"]
            ++ ln "2025-01-28 09:03:05 Thread-3 load test anomaly" :: [])
  /\ exists before later,
      stdout (check_log_order world_example "app.log")
      = PrintChecking "app.log"
          :: before
          ++ PrintBackwards 3 (Datetime.mk 2025 1 28 9 3 10)
                              (Datetime.mk 2025 1 28 9 3 5)
          :: PrintLine "2025-01-28 09:03:05 Thread-3 load test anomaly"
          :: later.
Proof.
  split; [reflexivity|].
  exact (violation_is_reported world_example "app.log"
           [ln "2025-01-28 09:03:08 Thread-1 load test start";
            ln "2025-01-28 09:03:10 Thread-2 load test continue"]
           [] (ln "2025-01-28 09:03:05 Thread-3 load test anomaly")
           (Datetime.mk 2025 1 28 9 3 10) (Datetime.mk 2025 1 28 9 3 5)
           eq_refl eq_refl eq_refl eq_refl).
Defined.

(** X4.  Every report in the output is a true backward step: the
    reported current time stamp is strictly earlier than the reported
    previous one, the line number is at least 2 and at most the number
    of lines, the line of that number carries the current time stamp
    and an earlier line carries the previous one. *)
Theorem reports_are_genuine
  (os : Os.OS) (filename : string) (lines : list string)
  (k : Z) (l d : datetime) :
  Os.read_lines os filename = Some lines ->
  In (PrintBackwards k l d) (stdout (check_log_order os filename)) ->
  Datetime.ltb d l = true
  /\ 2 <= k <= Z.of_nat (List.length lines)
  /\ (exists line,
        nth_error lines (Z.to_nat (k - 1)) = Some line
        /\ parsed_timestamp line = Some d)
  /\ (exists i line',
        (Z.of_nat i < k - 1)
        /\ nth_error lines i = Some line'
        /\ parsed_timestamp line' = Some l).
Proof.
  intros Hread Hin.
  destruct (stdout_check_log_order os filename _ Hread) as (final & E & Hf).
  rewrite E in Hin. apply printed_backwards_genuine.
  destruct Hin as [Hin|Hin]; [discriminate|].
  apply in_app_or in Hin. destruct Hin as [Hin|[Hin|[]]]; [exact Hin|].
  destruct Hf as [-> | ->]; discriminate.
Qed.

(** The report of [app.log]. *)
Lemma reports_are_genuine_witness :
  Os.read_lines world_example "app.log" = Some example_lines
  /\ In (PrintBackwards 3 (Datetime.mk 2025 1 28 9 3 10) (Datetime.mk 2025 1 28 9 3 5))
        (stdout (check_log_order world_example "app.log"))
  /\ Datetime.ltb (Datetime.mk 2025 1 28 9 3 5) (Datetime.mk 2025 1 28 9 3 10) = true.
Proof.
  assert (Hr : Os.read_lines world_example "app.log" = Some example_lines)
    by reflexivity.
  assert (Hin : In (PrintBackwards 3 (Datetime.mk 2025 1 28 9 3 10)
                                     (Datetime.mk 2025 1 28 9 3 5))
                   (stdout (check_log_order world_example "app.log")))
    by (right; left; reflexivity).
  split; [exact Hr|]. split; [exact Hin|].
  exact (proj1 (reports_are_genuine world_example "app.log" example_lines
                  3 _ _ Hr Hin)).
Defined.

(** X5.  A violation is never forgiven: the counter is never negative
    and never decreases when more lines follow, so a file that begins
    with the lines of a failing file fails too. *)
Theorem errors_never_decrease (l1 l2 : list string) :
  0 <= errors (scan l1) <= errors (scan (l1 ++ l2))
  /\ (outcome (summary (scan l1)) = SysExit 1 ->
      outcome (summary (scan (l1 ++ l2))) = SysExit 1).
Proof.
  assert (H : 0 <= errors (scan l1) <= errors (scan (l1 ++ l2))).
  { assert (H1 := errors_scan l1).
    assert (H2 := scan_from_errors l2 (scan l1)).
    replace (scan (l1 ++ l2)) with (scan_from (scan l1) l2)
      by (unfold scan; now rewrite scan_from_app).
    lia. }
  split; [exact H|].
  intros E. apply summary_exit in E. apply summary_exit. lia.
Qed.

(** The example followed by lines in order still fails. *)
Lemma errors_never_decrease_witness :
  outcome (summary (scan example_lines)) = SysExit 1
  /\ outcome (summary (scan (example_lines ++ ordered_lines))) = SysExit 1.
Proof.
  assert (H : outcome (summary (scan example_lines)) = SysExit 1) by reflexivity.
  split; [exact H|].
  exact (proj2 (errors_never_decrease example_lines ordered_lines) H).
Defined.

(** X6.  A file with at most one parsed time stamp (an empty file, a
    file without any line of the expected format, a file whose time
    stamps are all invalid but one) is reported as in order: nothing but
    parse errors is printed before the success message, and the exit
    status is 0. *)
Theorem at_most_one_timestamp_succeeds
  (os : Os.OS) (filename : string) (lines : list string) :
  Os.read_lines os filename = Some lines ->
  (List.length (timestamps lines) <= 1)%nat ->
  exit_status (check_log_order os filename) = 0
  /\ exists diag,
      stdout (check_log_order os filename)
      = PrintChecking filename :: diag ++ [PrintSuccess]
      /\ Forall (fun o => is_parse_error_report o = true) diag.
Proof.
  intros Hread Hlen.
  assert (Hs : nondecreasing (timestamps lines)).
  { unfold nondecreasing.
    destruct (timestamps lines) as [|a [|b ts]];
      [constructor|constructor|simpl in Hlen; lia]. }
  destruct (scan_from_ordered lines scan_init Hs) as (diag & Hpr & Hf & He).
  fold (scan lines) in Hpr, He. simpl in Hpr, He.
  rewrite (check_log_order_read _ _ _ Hread).
  unfold exit_status, summary. rewrite He. simpl. rewrite Hpr.
  split; [reflexivity|]. exists diag. now split.
Qed.

(** A file without any time stamp. *)
Lemma at_most_one_timestamp_succeeds_witness :
  Os.read_lines world_rotated "other.log" = Some []
  /\ (List.length (timestamps []) <= 1)%nat
  /\ exit_status (check_log_order world_rotated "other.log") = 0.
Proof.
  assert (Hr : Os.read_lines world_rotated "other.log" = Some []) by reflexivity.
  assert (Hl : (List.length (timestamps []) <= 1)%nat) by (simpl; lia).
  split; [exact Hr|]. split; [exact Hl|].
  exact (proj1 (at_most_one_timestamp_succeeds world_rotated "other.log" [] Hr Hl)).
Defined.

(** ** Only the leading 19 characters of a line are looked at *)

Lemma append_nil_r (s : string) : String.append s "" = s.
Proof. induction s as [|c s IH]; simpl; [reflexivity|now rewrite IH]. Qed.

Lemma has_shape_length (ks : list Re.cls) (s : string) :
  has_shape ks s = true -> String.length s = List.length ks.
Proof.
  revert s. induction ks as [|k ks IH]; intros [|a s] H; simpl in *;
    try discriminate; [reflexivity|].
  apply andb_true_iff in H. f_equal. now apply IH.
Qed.

Lemma take_prefix (n : nat) (s : string) :
  exists rest, s = String.append (PyStr.take n s) rest.
Proof.
  revert s. induction n as [|n IH]; intros s.
  - exists s. reflexivity.
  - destruct s as [|c s]; [exists ""; reflexivity|].
    destruct (IH s) as (rest & E). exists rest. simpl. now rewrite <- E.
Qed.

Lemma timestamp_match_take (line : string) :
  timestamp_match (PyStr.take 19 line) = timestamp_match line.
Proof.
  destruct (timestamp_match line) as [ts|] eqn:E.
  - apply timestamp_match_Some in E. destruct E as (rest & -> & Hs).
    assert (Hl := has_shape_length _ _ Hs).
    change (List.length timestamp_shape) with 19%nat in Hl.
    rewrite <- Hl, take_append.
    apply timestamp_match_Some. exists "". now rewrite append_nil_r.
  - destruct (timestamp_match (PyStr.take 19 line)) as [ts|] eqn:E'; [|reflexivity].
    apply timestamp_match_Some in E'. destruct E' as (r & Ht & Hs).
    destruct (take_prefix 19 line) as (rest & Hline).
    assert (timestamp_match line = Some ts).
    { apply timestamp_match_Some. exists (String.append r rest).
      split; [|exact Hs]. rewrite <- append_assoc, <- Ht. exact Hline. }
    congruence.
Qed.

(** The group of a match is the first 19 characters of the line. *)
Lemma timestamp_match_is_prefix (line ts : string) :
  timestamp_match line = Some ts -> ts = PyStr.take 19 line.
Proof.
  intros E. apply timestamp_match_Some in E. destruct E as (rest & -> & Hs).
  assert (Hl := has_shape_length _ _ Hs).
  change (List.length timestamp_shape) with 19%nat in Hl.
  now rewrite <- Hl, take_append.
Qed.

(** X7.  Only the first 19 characters of each line decide the verdict:
    the file with every line cut after its 19th character has the same
    parsed time stamps, the same violation count and the same exit. *)
Theorem verdict_depends_on_first_19_characters (lines : list string) :
  timestamps (map (PyStr.take 19) lines) = timestamps lines
  /\ errors (scan (map (PyStr.take 19) lines)) = errors (scan lines)
  /\ outcome (summary (scan (map (PyStr.take 19) lines)))
     = outcome (summary (scan lines)).
Proof.
  assert (Ht : timestamps (map (PyStr.take 19) lines) = timestamps lines).
  { induction lines as [|x lines IH]; [reflexivity|].
    rewrite map_cons, !timestamps_cons. unfold parsed_timestamp.
    rewrite timestamp_match_take, IH. reflexivity. }
  assert (He : errors (scan (map (PyStr.take 19) lines)) = errors (scan lines))
    by (now rewrite !errors_scan, Ht).
  split; [exact Ht|]. split; [exact He|].
  unfold summary. rewrite He. now destruct (errors (scan lines) =? 0).
Qed.

(** ** The outcomes of the main block *)

Lemma check_log_order_unread (os : Os.OS) (filename : string) :
  Os.read_lines os filename = None ->
  exists o e, check_log_order os filename = mkRun o (Uncaught e).
Proof.
  unfold Os.read_lines, check_log_order.
  destruct (Os.open_read os filename) as [[lines [e|]]|]; intros H;
    try discriminate; eexists; eexists; reflexivity.
Qed.

(** X8.  The program exits with status 0 only after a scan that found
    the file in order: exactly when there is a first argument, it
    resolves to a target, the target is opened and read to its end and
    its parsed time stamps are non-decreasing.  The usage error, the
    missing file, a candidate that cannot be stat'ed, a target that
    cannot be opened and a file that cannot be decoded never give
    status 0. *)
Theorem main_exit_zero_iff (os : Os.OS) (argv : list string) :
  exit_status (main os argv) = 0 <->
  exists P o target lines,
    nth_error argv 1 = Some P
    /\ resolve_target os P = inr (o, Some target)
    /\ Os.read_lines os target = Some lines
    /\ nondecreasing (timestamps lines).
Proof.
  destruct argv as [|argv0 [|P rest]].
  - split; [discriminate|]. intros (P & o & t & ls & H & _). discriminate.
  - split; [discriminate|]. intros (P & o & t & ls & H & _). discriminate.
  - rewrite main_with_argument.
    destruct (resolve_target os P) as [e|[o [t|]]] eqn:Hres.
    + split; [discriminate|].
      intros (P' & o' & t' & ls & HP & Ht & _).
      injection HP as <-. rewrite Hres in Ht. discriminate.
    + rewrite exit_status_after.
      destruct (Os.read_lines os t) as [lines|] eqn:Hread.
      * rewrite (check_log_order_read _ _ _ Hread), exit_status_after,
          exit_status_summary.
        split.
        -- intros H. exists P, o, t, lines. rewrite Hres.
           split; [reflexivity|split; [reflexivity|split; [exact Hread|exact H]]].
        -- intros (P' & o' & t' & ls & HP & Ht & Hr & Hs).
           injection HP as <-. rewrite Hres in Ht. injection Ht as <- <-.
           rewrite Hread in Hr. now injection Hr as <-.
      * destruct (check_log_order_unread os t Hread) as (o1 & e1 & ->).
        split; [discriminate|].
        intros (P' & o' & t' & ls & HP & Ht & Hr & Hs).
        injection HP as <-. rewrite Hres in Ht. injection Ht as <- <-.
        congruence.
    + split; [discriminate|].
      intros (P' & o' & t' & ls & HP & Ht & _).
      injection HP as <-. rewrite Hres in Ht. discriminate.
Qed.

(** ** The exceptions that escape *)







(** ** Which time stamps parse *)

Lemma digit_cases (a : ascii) :
  PyStr.is_digit a = true ->
  In a ["0"%char; "1"%char; "2"%char; "3"%char; "4"%char;
        "5"%char; "6"%char; "7"%char; "8"%char; "9"%char].
Proof.
  destruct a as [[] [] [] [] [] [] [] []]; intros H; vm_compute in H;
    try discriminate H; simpl;
    repeat (first [left; reflexivity | right]).
Qed.

Ltac split_digit H :=
  apply digit_cases in H; simpl in H;
  destruct H as [<-|[<-|[<-|[<-|[<-|[<-|[<-|[<-|[<-|[<-|[]]]]]]]]]]].

Lemma digit_not_space (a : ascii) :
  PyStr.is_digit a = true -> PyStr.is_space a = false.
Proof. intros H. split_digit H; reflexivity. Qed.

Lemma digit_not_chr (c a : ascii) :
  PyStr.is_digit a = true -> PyStr.is_digit c = false -> Ascii.eqb c a = false.
Proof.
  intros Ha Hc. destruct (Ascii.eqb_spec c a) as [->|]; congruence.
Qed.

Lemma consumed_two (a b : ascii) (rest : string) :
  Re.consumed (String a (String b rest)) rest = String a (String b "").
Proof. exact (consumed_append (String a (String b "")) rest). Qed.

(** Evaluates a directive on two given digits: the range test of the
    statement by computation, the matcher by unfolding. *)
Ltac solve_directive Hk :=
  cbn -[Re.consumed PyStr.int];
  repeat (match goal with
          | |- context [if ?c then _ else _] =>
              let v := eval vm_compute in c in change c with v
          end; cbv iota);
  rewrite ?Hk, ?consumed_two; try reflexivity;
  match goal with
  | |- context [match ?x with Some _ => _ | None => _ end] => destruct x
  end; reflexivity.

Lemma run_directive_m {A : Type} (a b : ascii) (rest : string)
      (env : Re.captures) (kont : string -> Re.captures -> option A) :
  PyStr.is_digit a = true -> PyStr.is_digit b = true ->
  (forall env', kont (String b rest) env' = None) ->
  Re.run Datetime.directive_m (String a (String b rest)) env kont =
  if (1 <=? PyStr.int (String a (String b "")))
     && (PyStr.int (String a (String b "")) <=? 12)
  then kont rest (("m", String a (String b "")) :: env)
  else None.
Proof.
  intros Ha Hb Hk. split_digit Ha; split_digit Hb; solve_directive Hk.
Qed.

Lemma run_directive_d {A : Type} (a b : ascii) (rest : string)
      (env : Re.captures) (kont : string -> Re.captures -> option A) :
  PyStr.is_digit a = true -> PyStr.is_digit b = true ->
  (forall env', kont (String b rest) env' = None) ->
  Re.run Datetime.directive_d (String a (String b rest)) env kont =
  if (1 <=? PyStr.int (String a (String b "")))
     && (PyStr.int (String a (String b "")) <=? 31)
  then kont rest (("d", String a (String b "")) :: env)
  else None.
Proof.
  intros Ha Hb Hk. split_digit Ha; split_digit Hb; solve_directive Hk.
Qed.

Lemma run_directive_H {A : Type} (a b : ascii) (rest : string)
      (env : Re.captures) (kont : string -> Re.captures -> option A) :
  PyStr.is_digit a = true -> PyStr.is_digit b = true ->
  (forall env', kont (String b rest) env' = None) ->
  Re.run Datetime.directive_H (String a (String b rest)) env kont =
  if PyStr.int (String a (String b "")) <=? 23
  then kont rest (("H", String a (String b "")) :: env)
  else None.
Proof.
  intros Ha Hb Hk. split_digit Ha; split_digit Hb; solve_directive Hk.
Qed.

Lemma run_directive_M {A : Type} (a b : ascii) (rest : string)
      (env : Re.captures) (kont : string -> Re.captures -> option A) :
  PyStr.is_digit a = true -> PyStr.is_digit b = true ->
  (forall env', kont (String b rest) env' = None) ->
  Re.run Datetime.directive_M (String a (String b rest)) env kont =
  if PyStr.int (String a (String b "")) <=? 59
  then kont rest (("M", String a (String b "")) :: env)
  else None.
Proof.
  intros Ha Hb Hk. split_digit Ha; split_digit Hb; solve_directive Hk.
Qed.

(** The last directive: its one-digit alternative leaves the second
    digit unconverted. *)
Lemma run_directive_S_last (a b : ascii) (env : Re.captures) :
  PyStr.is_digit a = true -> PyStr.is_digit b = true ->
  Re.run Datetime.directive_S (String a (String b "")) env
         (fun s' env' => Re.run Re.Eps s' env' (fun rest env => Some (rest, env)))
  = if PyStr.int (String a (String b "")) <=? 61
    then Some ("", ("S", String a (String b "")) :: env)
    else Some (String b "", ("S", String a "") :: env).
Proof.
  intros Ha Hb. split_digit Ha; split_digit Hb; reflexivity.
Qed.

Lemma run_directive_Y {A : Type} (y1 y2 y3 y4 : ascii) (rest : string)
      (env : Re.captures) (kont : string -> Re.captures -> option A) :
  PyStr.is_digit y1 = true -> PyStr.is_digit y2 = true ->
  PyStr.is_digit y3 = true -> PyStr.is_digit y4 = true ->
  Re.run Datetime.directive_Y
         (String y1 (String y2 (String y3 (String y4 rest)))) env kont
  = kont rest (("Y", String y1 (String y2 (String y3 (String y4 "")))) :: env).
Proof.
  intros H1 H2 H3 H4.
  cbn -[Re.consumed PyStr.is_digit]. rewrite H1, H2, H3, H4.
  replace (Re.consumed (String y1 (String y2 (String y3 (String y4 rest)))) rest)
    with (String y1 (String y2 (String y3 (String y4 ""))));
    [reflexivity|].
  symmetry.
  exact (consumed_append (String y1 (String y2 (String y3 (String y4 "")))) rest).
Qed.

Lemma run_Cat {A : Type} (r1 r2 : Re.regex) (s : string) (env : Re.captures)
      (kont : string -> Re.captures -> option A) :
  Re.run (Re.Cat r1 r2) s env kont
  = Re.run r1 s env (fun s' env' => Re.run r2 s' env' kont).
Proof. reflexivity. Qed.

Lemma run_chr_same {A : Type} (c : ascii) (s : string) (env : Re.captures)
      (kont : string -> Re.captures -> option A) :
  Re.run (Re.chr c) (String c s) env kont = kont s env.
Proof. cbn. now rewrite Ascii.eqb_refl. Qed.

Lemma run_chr_digit {A : Type} (c b : ascii) (r : Re.regex) (s : string)
      (env : Re.captures) (kont : string -> Re.captures -> option A) :
  PyStr.is_digit b = true -> PyStr.is_digit c = false ->
  Re.run (Re.Cat (Re.chr c) r) (String b s) env kont = None.
Proof.
  intros Hb Hc. cbn. now rewrite (digit_not_chr c b Hb Hc).
Qed.

Lemma run_spaces_digit {A : Type} (b : ascii) (r : Re.regex) (s : string)
      (env : Re.captures) (kont : string -> Re.captures -> option A) :
  PyStr.is_digit b = true ->
  Re.run (Re.Cat (Re.Many1 Re.Spc) r) (String b s) env kont = None.
Proof.
  intros Hb. cbn -[PyStr.is_space]. now rewrite (digit_not_space b Hb).
Qed.

Lemma run_one_space {A : Type} (h : ascii) (s : string) (env : Re.captures)
      (kont : string -> Re.captures -> option A) :
  PyStr.is_digit h = true ->
  Re.run (Re.Many1 Re.Spc) (String " " (String h s)) env kont
  = kont (String h s) env.
Proof.
  intros Hh. cbn -[PyStr.is_space].
  change (PyStr.is_space " ") with true. cbv iota.
  now rewrite (digit_not_space h Hh).
Qed.

Lemma days_in_month_le (y m : Z) :
  1 <= m <= 12 -> Datetime.days_in_month y m <= 31.
Proof.
  intros H. unfold Datetime.days_in_month.
  destruct ((m =? 2) && Datetime.is_leap y); [lia|].
  assert (C : m = 1 \/ m = 2 \/ m = 3 \/ m = 4 \/ m = 5 \/ m = 6 \/ m = 7
              \/ m = 8 \/ m = 9 \/ m = 10 \/ m = 11 \/ m = 12) by lia.
  repeat (destruct C as [->|C]; [vm_compute; discriminate|]).
  subst m. vm_compute. discriminate.
Qed.

Lemma new_inr (y m d H M S : Z) (dt : datetime) :
  Datetime.new y m d H M S = inr dt ->
  dt = Datetime.mk y m d H M S
  /\ 1 <= y <= 9999 /\ 1 <= m <= 12 /\ 1 <= d <= Datetime.days_in_month y m
  /\ 0 <= H <= 23 /\ 0 <= M <= 59 /\ 0 <= S <= 59.
Proof.
  unfold Datetime.new, Datetime.check_date_fields, Datetime.check_time_fields,
    Datetime.MINYEAR, Datetime.MAXYEAR.
  repeat match goal with
         | |- context [negb (?a && ?b)] =>
             destruct a eqn:?; destruct b eqn:?; cbn [andb negb]
         end;
    try discriminate.
  intros [= <-]. repeat split; lia.
Qed.

Ltac peel_digit H c ts :=
  destruct ts as [|c ts]; [discriminate H|];
  cbn [has_shape Re.cls_ok] in H;
  apply andb_true_iff in H;
  let Hc := fresh "D" c in destruct H as [Hc H].

Ltac peel_chr H ts :=
  let c := fresh "c" in
  let Hc := fresh "Hc" in
  destruct ts as [|c ts]; [discriminate H|];
  cbn [has_shape Re.cls_ok] in H;
  apply andb_true_iff in H; destruct H as [Hc H];
  apply Ascii.eqb_eq in Hc; subst c.

(** Closes a case in which the regular expression rejects a field:
    the constructor rejects it too. *)
Ltac out_of_range E :=
  let N := fresh "N" in
  split; [discriminate|];
  intros N; apply new_inr in N;
  destruct N as (_ & _ & ? & ? & ? & ? & ?);
  match goal with
  | Hm : 1 <= ?m <= 12, Hd : _ <= ?d <= Datetime.days_in_month ?y ?m |- _ =>
      pose proof (days_in_month_le y m Hm)
  end;
  try (apply andb_false_iff in E; destruct E as [E|E]);
  apply Z.leb_gt in E; lia.

(** On a string of the shape of a time stamp, the regular expression of
    [strptime] rejects nothing that the constructor of [datetime] would
    accept: parsing succeeds exactly when the constructor accepts the
    six fields read at their positions. *)
Lemma strptime_on_shape (ts : string) (dt : datetime) :
  has_shape timestamp_shape ts = true ->
  (Datetime.strptime ts = inr dt <->
   Datetime.new (PyStr.int (substring 0 4 ts)) (PyStr.int (substring 5 2 ts))
                (PyStr.int (substring 8 2 ts)) (PyStr.int (substring 11 2 ts))
                (PyStr.int (substring 14 2 ts)) (PyStr.int (substring 17 2 ts))
   = inr dt).
Proof.
  intros H. unfold timestamp_shape in H.
  peel_digit H y1 ts. peel_digit H y2 ts. peel_digit H y3 ts. peel_digit H y4 ts.
  peel_chr H ts.
  peel_digit H m1 ts. peel_digit H m2 ts.
  peel_chr H ts.
  peel_digit H d1 ts. peel_digit H d2 ts.
  peel_chr H ts.
  peel_digit H H1 ts. peel_digit H H2 ts.
  peel_chr H ts.
  peel_digit H M1 ts. peel_digit H M2 ts.
  peel_chr H ts.
  peel_digit H S1 ts. peel_digit H S2 ts.
  destruct ts; [clear H|discriminate H].
  cbn [substring].
  unfold Datetime.strptime, Re.match_, Datetime.format_regex, Re.seq.
  cbn [fold_right].
  rewrite run_Cat, run_directive_Y by assumption.
  rewrite run_Cat, run_chr_same.
  rewrite run_Cat, run_directive_m;
    [|assumption|assumption|intros; now apply run_chr_digit].
  rewrite run_Cat, run_chr_same.
  rewrite run_Cat, run_directive_d;
    [|assumption|assumption|intros; now apply run_spaces_digit].
  rewrite run_Cat, run_one_space by assumption.
  rewrite run_Cat, run_directive_H;
    [|assumption|assumption|intros; now apply run_chr_digit].
  rewrite run_Cat, run_chr_same.
  rewrite run_Cat, run_directive_M;
    [|assumption|assumption|intros; now apply run_chr_digit].
  rewrite run_Cat, run_chr_same.
  rewrite run_Cat, run_directive_S_last by assumption.
  destruct ((1 <=? PyStr.int (String m1 (String m2 "")))
            && (PyStr.int (String m1 (String m2 "")) <=? 12)) eqn:Em;
    [|out_of_range Em].
  destruct ((1 <=? PyStr.int (String d1 (String d2 "")))
            && (PyStr.int (String d1 (String d2 "")) <=? 31)) eqn:Ed;
    [|out_of_range Ed].
  destruct (PyStr.int (String H1 (String H2 "")) <=? 23) eqn:EH;
    [|out_of_range EH].
  destruct (PyStr.int (String M1 (String M2 "")) <=? 59) eqn:EM;
    [|out_of_range EM].
  destruct (PyStr.int (String S1 (String S2 "")) <=? 61) eqn:ES;
    [|out_of_range ES].
  cbn -[PyStr.int PyStr.is_space Datetime.check_date_fields Datetime.new].
  rewrite (digit_not_space d1 Dd1).
  unfold Datetime.new.
  destruct (Datetime.check_date_fields _ _ _); reflexivity.
Qed.

Lemma new_inr_iff (y m d H M S : Z) (dt : datetime) :
  Datetime.new y m d H M S = inr dt <->
  dt = Datetime.mk y m d H M S
  /\ 1 <= y <= 9999 /\ 1 <= m <= 12 /\ 1 <= d <= Datetime.days_in_month y m
  /\ 0 <= H <= 23 /\ 0 <= M <= 59 /\ 0 <= S <= 59.
Proof.
  split; [apply new_inr|].
  intros (-> & Hy & Hm & Hd & HH & HM & HS).
  unfold Datetime.new, Datetime.check_date_fields, Datetime.check_time_fields,
    Datetime.MINYEAR, Datetime.MAXYEAR.
  repeat match goal with
         | |- context [?a <=? ?b] =>
             let E := fresh "E" in
             assert (E : (a <=? b) = true) by (apply Z.leb_le; lia);
             rewrite E; clear E
         end.
  reflexivity.
Qed.

(** X10.  A line that begins with a time stamp of the shape
    [YYYY-MM-DD HH:MM:SS] written with the digits [0] to [9] (the
    digits of [has_shape]; other decimal digits are not covered) counts
    as a time stamp exactly when the six fields, read as decimal
    numbers at their positions, form a valid date and time of day: year at least 1, month 1 to 12, day 1 to the
    number of days of that month in that year (29 for February in leap
    years), hour at most 23, minute and second at most 59; the parsed
    value has exactly these fields.  Every other such line gives a
    parse error. *)
Theorem timestamp_parses_iff_valid (ts tail : string) (dt : datetime) :
  has_shape timestamp_shape ts = true ->
  (parsed_timestamp (String.append ts tail) = Some dt <->
   Datetime.year dt = PyStr.int (substring 0 4 ts)
   /\ Datetime.month dt = PyStr.int (substring 5 2 ts)
   /\ Datetime.day dt = PyStr.int (substring 8 2 ts)
   /\ Datetime.hour dt = PyStr.int (substring 11 2 ts)
   /\ Datetime.minute dt = PyStr.int (substring 14 2 ts)
   /\ Datetime.second dt = PyStr.int (substring 17 2 ts)
   /\ 1 <= Datetime.year dt <= 9999
   /\ 1 <= Datetime.month dt <= 12
   /\ 1 <= Datetime.day dt
        <= Datetime.days_in_month (Datetime.year dt) (Datetime.month dt)
   /\ 0 <= Datetime.hour dt <= 23
   /\ 0 <= Datetime.minute dt <= 59
   /\ 0 <= Datetime.second dt <= 59)
  /\ (parsed_timestamp (String.append ts tail) = None <->
      exists e, Datetime.strptime ts = inl e).
Proof.
  intros Hs.
  assert (Hm : timestamp_match (String.append ts tail) = Some ts)
    by (apply timestamp_match_Some; now exists tail).
  unfold parsed_timestamp. rewrite Hm. split.
  - transitivity (Datetime.strptime ts = inr dt).
    { destruct (Datetime.strptime ts); split; congruence. }
    rewrite (strptime_on_shape ts dt Hs), new_inr_iff.
    destruct dt as [y m d H M S]. cbn [Datetime.year Datetime.month Datetime.day
                                         Datetime.hour Datetime.minute Datetime.second].
    split.
    + intros (E & R). injection E as -> -> -> -> -> ->. tauto.
    + intros (-> & -> & -> & -> & -> & -> & R). tauto.
  - destruct (Datetime.strptime ts) as [e|d].
    + split; [intros _; now exists e|reflexivity].
    + split; [discriminate|]. intros (e & E). discriminate.
Qed.

(** The leap day of 2024. *)
Lemma timestamp_parses_iff_valid_witness :
  has_shape timestamp_shape "2024-02-29 23:59:59" = true
  /\ parsed_timestamp (String.append "2024-02-29 23:59:59" " Thread-1 load test")
     = Some (Datetime.mk 2024 2 29 23 59 59).
Proof.
  assert (Hs : has_shape timestamp_shape "2024-02-29 23:59:59" = true)
    by reflexivity.
  split; [exact Hs|].
  apply (proj1 (timestamp_parses_iff_valid "2024-02-29 23:59:59"
                  " Thread-1 load test" (Datetime.mk 2024 2 29 23 59 59) Hs)).
  vm_compute. repeat split; discriminate.
Defined.

(** ** Which candidate is the latest *)

Lemma gtb_iff (a b : Q) : Os.gtb a b = true <-> (b < a)%Q.
Proof.
  unfold Os.gtb. rewrite negb_true_iff. split.
  - intros H. apply Qnot_le_lt. intros Hle.
    apply Qle_bool_iff in Hle. congruence.
  - intros H. destruct (Qle_bool a b) eqn:E; [|reflexivity].
    apply Qle_bool_iff in E. now apply Qlt_not_le in H.
Qed.

(** No later item replaces a maximal one. *)
Lemma max_from_keep {A E : Type} (key : A -> E + Q) (post : list A)
      (m : A) (mv : Q) :
  (forall y, In y post -> exists q, key y = inr q /\ (q <= mv)%Q) ->
  Os.max_from key m mv post = inr m.
Proof.
  induction post as [|y post IH]; intros H; [reflexivity|].
  destruct (H y (or_introl eq_refl)) as (q & Hq & Hle).
  simpl. rewrite Hq.
  destruct (Os.gtb q mv) eqn:Eg.
  - apply gtb_iff in Eg. exfalso. now apply (Qlt_not_le _ _ Eg).
  - apply IH. intros z Hz. apply H. now right.
Qed.

(** The first item whose key exceeds all earlier keys and is not
    exceeded later is the maximum. *)
Lemma max_from_first {A E : Type} (key : A -> E + Q) (c : A) (qc : Q)
      (post pre : list A) :
  key c = inr qc ->
  (forall y, In y post -> exists q, key y = inr q /\ (q <= qc)%Q) ->
  forall m mv,
    (mv < qc)%Q ->
    (forall y, In y pre -> exists q, key y = inr q /\ (q < qc)%Q) ->
    Os.max_from key m mv (pre ++ c :: post) = inr c.
Proof.
  intros Hc Hpost.
  induction pre as [|y pre IH]; intros m mv Hm Hpre.
  - simpl. rewrite Hc, (proj2 (gtb_iff qc mv) Hm).
    now apply max_from_keep.
  - destruct (Hpre y (or_introl eq_refl)) as (q & Hq & Hlt).
    simpl. rewrite Hq.
    assert (Hpre' : forall z, In z pre -> exists q, key z = inr q /\ (q < qc)%Q)
      by (intros z Hz; apply Hpre; now right).
    destruct (Os.gtb q mv); now apply IH.
Qed.

(** X11.  Among the candidates of the prefix search the target is the
    first one, in the order in which [glob] lists them, whose creation
    time is the latest: every candidate before it is strictly older and
    no candidate after it is newer. *)
Theorem first_latest_candidate_is_selected
  (os : Os.OS) (P c : string) (pre post : list string) (qc : Q) :
  Os.path_exists os P = false ->
  Os.glob os (String.append P ".*") = pre ++ c :: post ->
  Os.path_getctime os c = Some qc ->
  (forall y, In y pre ->
     exists q, Os.path_getctime os y = Some q /\ (q < qc)%Q) ->
  (forall y, In y post ->
     exists q, Os.path_getctime os y = Some q /\ (q <= qc)%Q) ->
  resolve_target os P = inr ([PrintTargeting c], Some c).
Proof.
  intros Hex Hglob Hc Hpre Hpost.
  rewrite (resolve_missing os P Hex), Hglob.
  assert (Kc : getctime os c = inr qc) by now apply getctime_inr.
  assert (Kpre : forall y, In y pre ->
                   exists q, getctime os y = inr q /\ (q < qc)%Q).
  { intros y Hy. destruct (Hpre y Hy) as (q & Hq & Hlt).
    exists q. split; [now apply getctime_inr|exact Hlt]. }
  assert (Kpost : forall y, In y post ->
                    exists q, getctime os y = inr q /\ (q <= qc)%Q).
  { intros y Hy. destruct (Hpost y Hy) as (q & Hq & Hle).
    exists q. split; [now apply getctime_inr|exact Hle]. }
  assert (E : forall x xs,
             x :: xs = pre ++ c :: post ->
             Os.max_by_key (getctime os) x xs = inr c).
  { intros x xs Hx. unfold Os.max_by_key. destruct pre as [|y pre'].
    - injection Hx as -> ->. rewrite Kc. now apply max_from_keep.
    - injection Hx as -> ->.
      destruct (Kpre y (or_introl eq_refl)) as (q & Hq & Hlt). rewrite Hq.
      apply (max_from_first (getctime os) c qc post pre' Kc Kpost y q Hlt).
      intros z Hz. apply Kpre. now right. }
  destruct (pre ++ c :: post) as [|x xs] eqn:L.
  - destruct pre; discriminate.
  - now rewrite (E x xs eq_refl).
Qed.

(** Two candidates of the same, latest creation time: the first one
    listed is the target. *)
Lemma first_latest_candidate_is_selected_witness :
  resolve_target
    (Fs.to_os [Fs.mkNode "a.1" (Fs.Regular []) 5;
               Fs.mkNode "a.2" (Fs.Regular []) 7;
               Fs.mkNode "a.3" (Fs.Regular []) 7])
    "a"
  = inr ([PrintTargeting "a.2"], Some "a.2").
Proof.
  apply (first_latest_candidate_is_selected _ "a" "a.2" ["a.1"] ["a.3"] 7%Q).
  - reflexivity.
  - reflexivity.
  - reflexivity.
  - intros y [<-|[]]. exists 5%Q. split; reflexivity.
  - intros y [<-|[]]. exists 7%Q. split; [reflexivity|].
    vm_compute. discriminate.
Defined.

(** ** The parse-error diagnostics *)

Lemma scan_from_parse_errors (lines : list string) :
  forall st,
    List.length (filter is_parse_error_report (printed (scan_from st lines)))
    = (List.length (filter is_parse_error_report (printed st))
       + List.length
           (filter (fun line =>
                      match timestamp_match line with
                      | Some dt_str =>
                          match Datetime.strptime dt_str with
                          | inl _ => true
                          | inr _ => false
                          end
                      | None => false
                      end) lines))%nat.
Proof.
  induction lines as [|line lines IH]; intros st; [simpl; lia|].
  rewrite scan_from_cons, IH, loop_body_step. clear IH.
  unfold timestamp_step. cbn [filter].
  destruct (timestamp_match line) as [s|]; [|cbn [printed]; lia].
  destruct (Datetime.strptime s) as [e|d].
  - cbn [printed print]. rewrite filter_app, length_app. simpl. lia.
  - cbn [last_dt]. destruct (last_dt st) as [l|]; [|cbn [printed]; lia].
    destruct (Datetime.ltb d l); cbn [printed print];
      rewrite ?filter_app, ?length_app; simpl; lia.
Qed.

(** X12.  One parse-error diagnostic is printed for every line whose
    leading text matches the pattern and does not parse, and for no
    other line: their number in the output is the number of such lines
    of the file. *)
Theorem parse_error_count
  (os : Os.OS) (filename : string) (lines : list string) :
  Os.read_lines os filename = Some lines ->
  List.length (filter is_parse_error_report (stdout (check_log_order os filename)))
  = List.length
      (filter (fun line =>
                 match timestamp_match line with
                 | Some dt_str =>
                     match Datetime.strptime dt_str with
                     | inl _ => true
                     | inr _ => false
                     end
                 | None => false
                 end) lines).
Proof.
  intros Hread.
  destruct (stdout_check_log_order os filename _ Hread) as (final & -> & Hf).
  cbn [filter is_parse_error_report]. rewrite filter_app, length_app.
  unfold scan. rewrite scan_from_parse_errors.
  destruct Hf as [-> | ->]; simpl; lia.
Qed.

(** The file [month13.log] has one such line. *)
Lemma parse_error_count_witness :
  Os.read_lines world_example "month13.log" = Some month13_lines
  /\ List.length (filter is_parse_error_report
                         (stdout (check_log_order world_example "month13.log")))
     = 1%nat.
Proof.
  assert (Hr : Os.read_lines world_example "month13.log" = Some month13_lines)
    by reflexivity.
  split; [exact Hr|].
  exact (parse_error_count world_example "month13.log" month13_lines Hr).
Defined.
